(** * Whisper Converter: configuration store, OpenAI service and pipeline

    A shallow embedding of [config_manager.py], [openai_service.py] and the
    stage handling of [main.py], with the properties of the pipeline
    specification stated over it.

    Conventions of the embedding:
    - Python values that flow through the program untyped (whatever
      [json.load] produced, whatever a getter returns) are terms of [pyval];
    - an expression that may raise evaluates to an [outcome];
    - text is a [string] whose characters are the code points 0..255;
    - the remote API, the audio files and the preferences file are explicit
      arguments ([Remote], [Disk]); the requests sent are returned as a log. *)

From Stdlib Require Import Bool Arith ZArith NArith List String Ascii Lia.
From Stdlib Require Import DecimalFacts DecimalPos DecimalN DecimalZ.
Import ListNotations.
Local Open Scope string_scope.
Set Warnings "-register-all".


(* ================================================================== *)
(** ** Python values and exceptions *)

Module Py.

(** The Python objects [json.load] can build: [None], [bool], [int], [str],
    [list] and [dict] with [str] keys in insertion order. *)
Inductive pyval : Type :=
| PNone
| PBool (b : bool)
| PInt (z : Z)
| PStr (s : string)
| PList (l : list pyval)
| PDict (d : list (string * pyval)).

(** [bool(v)]: the truth value tested by [if v:] and [not v]. *)
Definition truthy (v : pyval) : bool :=
  match v with
  | PNone => false
  | PBool b => b
  | PInt z => negb (Z.eqb z 0)
  | PStr EmptyString => false
  | PStr (String _ _) => true
  | PList [] => false
  | PList (_ :: _) => true
  | PDict [] => false
  | PDict (_ :: _) => true
  end.

(** [type(v).__name__] *)
Definition type_name (v : pyval) : string :=
  match v with
  | PNone => "NoneType"
  | PBool _ => "bool"
  | PInt _ => "int"
  | PStr _ => "str"
  | PList _ => "list"
  | PDict _ => "dict"
  end.

(** The exception classes the three modules can meet.  All of them derive
    from [Exception]; [FileNotFoundError], [PermissionError] and
    [IsADirectoryError] are the [OSError]s of [open]. *)
Inductive exn_class : Type :=
| Exception
| JSONDecodeError
| FileNotFoundError
| PermissionError
| IsADirectoryError
| UnicodeDecodeError
| AttributeError
| TypeError
| IndexError
| APIConnectionError
| AuthenticationError
| APIStatusError.

Definition exn_class_eqb (a b : exn_class) : bool :=
  match a, b with
  | Exception, Exception
  | JSONDecodeError, JSONDecodeError
  | FileNotFoundError, FileNotFoundError
  | PermissionError, PermissionError
  | IsADirectoryError, IsADirectoryError
  | UnicodeDecodeError, UnicodeDecodeError
  | AttributeError, AttributeError
  | TypeError, TypeError
  | IndexError, IndexError
  | APIConnectionError, APIConnectionError
  | AuthenticationError, AuthenticationError
  | APIStatusError, APIStatusError => true
  | _, _ => false
  end.

(** An exception object: its class and [str(e)]. *)
Record pyexn : Type := mk_exn { exn_cls : exn_class; exn_str : string }.

Inductive outcome (A : Type) : Type :=
| Return (a : A)
| Raise (e : pyexn).
Arguments Return {A} a.
Arguments Raise {A} e.

Definition bind {A B} (m : outcome A) (k : A -> outcome B) : outcome B :=
  match m with
  | Return a => k a
  | Raise e => Raise e
  end.

(** [d.get(key, default)] on a [dict] held as an association list. *)
Fixpoint dict_get (key : string) (d : list (string * pyval)) : option pyval :=
  match d with
  | [] => None
  | (k, v) :: d' => if String.eqb k key then Some v else dict_get key d'
  end.

(** [d[key] = value]: an existing key keeps its position, a new key goes
    last. *)
Fixpoint dict_set (key : string) (value : pyval) (d : list (string * pyval))
  : list (string * pyval) :=
  match d with
  | [] => [(key, value)]
  | (k, v) :: d' =>
      if String.eqb k key then (k, value) :: d'
      else (k, v) :: dict_set key value d'
  end.

(** [dict(pairs)]: later pairs overwrite earlier ones. *)
Definition dict_of_pairs (pairs : list (string * pyval)) : list (string * pyval) :=
  fold_left (fun d kv => dict_set (fst kv) (snd kv) d) pairs [].

(** [obj.get(key, default)]: only a [dict] has the method. *)
Definition py_get (obj : pyval) (key : string) (default : pyval) : outcome pyval :=
  match obj with
  | PDict d =>
      match dict_get key d with
      | Some v => Return v
      | None => Return default
      end
  | _ => Raise (mk_exn AttributeError
                  ("'" ++ type_name obj ++ "' object has no attribute 'get'"))
  end.

(** [obj[key] = value] for a [str] key. *)
Definition py_setitem (obj : pyval) (key : string) (value : pyval) : outcome pyval :=
  match obj with
  | PDict d => Return (PDict (dict_set key value d))
  | PList _ =>
      Raise (mk_exn TypeError "list indices must be integers or slices, not str")
  | _ => Raise (mk_exn TypeError
                  ("'" ++ type_name obj ++ "' object does not support item assignment"))
  end.

(** [s.startswith(prefix)] and [sub in s] on [str]. *)
Definition startswith (s pre : string) : bool := String.prefix pre s.

Fixpoint contains (sub s : string) : bool :=
  String.prefix sub s
  || match s with
     | EmptyString => false
     | String _ rest => contains sub rest
     end.

(** Every [dict] inside the value has pairwise distinct keys, as every
    Python [dict] does. *)
Fixpoint wf (v : pyval) : Prop :=
  match v with
  | PList l => (fix all (l : list pyval) : Prop :=
                  match l with
                  | [] => True
                  | x :: l' => wf x /\ all l'
                  end) l
  | PDict d => NoDup (map fst d)
               /\ (fix all (d : list (string * pyval)) : Prop :=
                     match d with
                     | [] => True
                     | kv :: d' => wf (snd kv) /\ all d'
                     end) d
  | _ => True
  end.

End Py.
Import Py.

(* ================================================================== *)
(** ** The [json] module of the Python library

    [dumps] follows [json.dumps] with its default arguments (separators
    [", "] and [": "], [ensure_ascii]); [loads] follows the scanner of
    [json.loads].  Numbers are the integers: a literal with a fraction or an
    exponent, [NaN] and [Infinity] are outside the fragment and are not
    decoded, and neither is an escape [\uXXXX] above 255. *)

Module Json.

Definition dquote : ascii := "034"%char.
Definition bslash : ascii := "092"%char.

Definition str1 (c : ascii) : string := String c EmptyString.

(** *** Encoding *)

Definition hex_digit (n : N) : ascii :=
  if (n <? 10)%N then ascii_of_N (48 + n) else ascii_of_N (87 + n).

(** One character of a string literal: the short escapes, the printable
    ASCII characters as they are, [\u00xx] for the rest. *)
Definition escape_char (c : ascii) : string :=
  let n := N_of_ascii c in
  if (c =? dquote)%char then String bslash (str1 dquote)
  else if (c =? bslash)%char then String bslash (str1 bslash)
  else if (n =? 8)%N then String bslash "b"
  else if (n =? 9)%N then String bslash "t"
  else if (n =? 10)%N then String bslash "n"
  else if (n =? 12)%N then String bslash "f"
  else if (n =? 13)%N then String bslash "r"
  else if ((32 <=? n) && (n <=? 126))%N then str1 c
  else String bslash ("u00" ++ String (hex_digit (n / 16)) (str1 (hex_digit (n mod 16)))).

Fixpoint escape (s : string) : string :=
  match s with
  | EmptyString => EmptyString
  | String c r => escape_char c ++ escape r
  end.

Definition dump_str (s : string) : string :=
  String dquote (escape s ++ str1 dquote).

Fixpoint uint_str (u : Decimal.uint) : string :=
  match u with
  | Decimal.Nil => EmptyString
  | Decimal.D0 u => String "0" (uint_str u)
  | Decimal.D1 u => String "1" (uint_str u)
  | Decimal.D2 u => String "2" (uint_str u)
  | Decimal.D3 u => String "3" (uint_str u)
  | Decimal.D4 u => String "4" (uint_str u)
  | Decimal.D5 u => String "5" (uint_str u)
  | Decimal.D6 u => String "6" (uint_str u)
  | Decimal.D7 u => String "7" (uint_str u)
  | Decimal.D8 u => String "8" (uint_str u)
  | Decimal.D9 u => String "9" (uint_str u)
  end.

Definition dump_int (z : Z) : string :=
  match Z.to_int z with
  | Decimal.Pos u => uint_str u
  | Decimal.Neg u => String "-" (uint_str u)
  end.

Fixpoint dumps (v : pyval) : string :=
  match v with
  | PNone => "null"
  | PBool true => "true"
  | PBool false => "false"
  | PInt z => dump_int z
  | PStr s => dump_str s
  | PList l =>
      "[" ++ (fix items (l : list pyval) : string :=
                match l with
                | [] => "]"
                | [x] => dumps x ++ "]"
                | x :: l' => dumps x ++ ", " ++ items l'
                end) l
  | PDict d =>
      "{" ++ (fix members (d : list (string * pyval)) : string :=
                match d with
                | [] => "}"
                | [kv] => dump_str (fst kv) ++ ": " ++ dumps (snd kv) ++ "}"
                | kv :: d' =>
                    dump_str (fst kv) ++ ": " ++ dumps (snd kv) ++ ", " ++ members d'
                end) d
  end.

(** *** Decoding *)

Definition is_ws (c : ascii) : bool :=
  let n := N_of_ascii c in
  ((n =? 32) || (n =? 9) || (n =? 10) || (n =? 13))%N.

Fixpoint skip_ws (s : string) : string :=
  match s with
  | EmptyString => EmptyString
  | String c r => if is_ws c then skip_ws r else s
  end.

Definition hex_value (c : ascii) : option N :=
  let n := N_of_ascii c in
  if ((48 <=? n) && (n <=? 57))%N then Some (n - 48)%N
  else if ((97 <=? n) && (n <=? 102))%N then Some (n - 87)%N
  else if ((65 <=? n) && (n <=? 70))%N then Some (n - 55)%N
  else None.

(** The character written [\e] for a one-letter escape [e]. *)
Definition short_escape (e : ascii) : option ascii :=
  if (e =? dquote)%char then Some dquote
  else if (e =? bslash)%char then Some bslash
  else if (e =? "/")%char then Some "/"%char
  else if (e =? "b")%char then Some "008"%char
  else if (e =? "f")%char then Some "012"%char
  else if (e =? "n")%char then Some "010"%char
  else if (e =? "r")%char then Some "013"%char
  else if (e =? "t")%char then Some "009"%char
  else None.

(** [\uXXXX]: the code point when it is at most 255. *)
Definition unicode_escape (h1 h2 h3 h4 : ascii) : option ascii :=
  match hex_value h1, hex_value h2, hex_value h3, hex_value h4 with
  | Some a, Some b, Some c, Some d =>
      if ((a =? 0) && (b =? 0))%N then Some (ascii_of_N (16 * c + d)) else None
  | _, _, _, _ => None
  end.

Definition cons_char (c : ascii) (r : option (string * string))
  : option (string * string) :=
  match r with
  | Some (t, rest) => Some (String c t, rest)
  | None => None
  end.

(** The body of a string literal, after its opening quote: the decoded
    text and what follows the closing quote. *)
Fixpoint scan_string (s : string) : option (string * string) :=
  match s with
  | EmptyString => None
  | String c r =>
      if (c =? dquote)%char then Some (EmptyString, r)
      else if (c =? bslash)%char then
        match r with
        | EmptyString => None
        | String e r' =>
            if (e =? "u")%char then
              match r' with
              | String h1 (String h2 (String h3 (String h4 r''))) =>
                  match unicode_escape h1 h2 h3 h4 with
                  | Some ch => cons_char ch (scan_string r'')
                  | None => None
                  end
              | _ => None
              end
            else
              match short_escape e with
              | Some ch => cons_char ch (scan_string r')
              | None => None
              end
        end
      else if (N_of_ascii c <? 32)%N then None
      else cons_char c (scan_string r)
  end.

Definition digit_of (c : ascii) : option (Decimal.uint -> Decimal.uint) :=
  if (c =? "0")%char then Some Decimal.D0
  else if (c =? "1")%char then Some Decimal.D1
  else if (c =? "2")%char then Some Decimal.D2
  else if (c =? "3")%char then Some Decimal.D3
  else if (c =? "4")%char then Some Decimal.D4
  else if (c =? "5")%char then Some Decimal.D5
  else if (c =? "6")%char then Some Decimal.D6
  else if (c =? "7")%char then Some Decimal.D7
  else if (c =? "8")%char then Some Decimal.D8
  else if (c =? "9")%char then Some Decimal.D9
  else None.

Fixpoint scan_digits (s : string) : Decimal.uint * string :=
  match s with
  | EmptyString => (Decimal.Nil, EmptyString)
  | String c r =>
      match digit_of c with
      | Some d => let (u, rest) := scan_digits r in (d u, rest)
      | None => (Decimal.Nil, s)
      end
  end.

(** The integer part of a number: [0] alone, or a non-zero digit and the
    digits after it. *)
Definition scan_int (s : string) : option (Decimal.uint * string) :=
  match s with
  | EmptyString => None
  | String c r =>
      if (c =? "0")%char then Some (Decimal.D0 Decimal.Nil, r)
      else match digit_of c with
           | Some _ => Some (scan_digits s)
           | None => None
           end
  end.

Definition float_marker (s : string) : bool :=
  match s with
  | EmptyString => false
  | String c _ => ((c =? ".") || (c =? "e") || (c =? "E"))%char
  end.

Definition parse_number (s : string) : option (pyval * string) :=
  match s with
  | EmptyString => None
  | String c r =>
      if (c =? "-")%char then
        match scan_int r with
        | Some (u, rest) =>
            if float_marker rest then None
            else Some (PInt (Z.of_int (Decimal.Neg u)), rest)
        | None => None
        end
      else
        match scan_int s with
        | Some (u, rest) =>
            if float_marker rest then None
            else Some (PInt (Z.of_int (Decimal.Pos u)), rest)
        | None => None
        end
  end.

(** [strip pre s]: what follows [pre] in [s]. *)
Fixpoint strip (pre s : string) : option string :=
  match pre, s with
  | EmptyString, _ => Some s
  | String a pre', String b s' => if (a =? b)%char then strip pre' s' else None
  | String _ _, EmptyString => None
  end.

Fixpoint parse_value (fuel : nat) (s : string) {struct fuel}
  : option (pyval * string) :=
  match fuel with
  | O => None
  | S fuel' =>
      match s with
      | EmptyString => None
      | String c r =>
          if (c =? dquote)%char then
            match scan_string r with
            | Some (t, rest) => Some (PStr t, rest)
            | None => None
            end
          else if (c =? "[")%char then
            match strip "]" (skip_ws r) with
            | Some rest => Some (PList [], rest)
            | None => parse_elems fuel' (skip_ws r) []
            end
          else if (c =? "{")%char then
            match strip "}" (skip_ws r) with
            | Some rest => Some (PDict [], rest)
            | None => parse_members fuel' (skip_ws r) []
            end
          else
            match strip "null" s, strip "true" s, strip "false" s with
            | Some rest, _, _ => Some (PNone, rest)
            | _, Some rest, _ => Some (PBool true, rest)
            | _, _, Some rest => Some (PBool false, rest)
            | None, None, None => parse_number s
            end
      end
  end

with parse_elems (fuel : nat) (s : string) (acc : list pyval) {struct fuel}
  : option (pyval * string) :=
  match fuel with
  | O => None
  | S fuel' =>
      match parse_value fuel' s with
      | None => None
      | Some (v, r) =>
          match skip_ws r with
          | EmptyString => None
          | String c r' =>
              if (c =? "]")%char then Some (PList (rev (v :: acc)), r')
              else if (c =? ",")%char then parse_elems fuel' (skip_ws r') (v :: acc)
              else None
          end
      end
  end

with parse_members (fuel : nat) (s : string) (acc : list (string * pyval))
  {struct fuel} : option (pyval * string) :=
  match fuel with
  | O => None
  | S fuel' =>
      match s with
      | EmptyString => None
      | String q r0 =>
          if (q =? dquote)%char then
            match scan_string r0 with
            | None => None
            | Some (k, r1) =>
                match strip ":" (skip_ws r1) with
                | None => None
                | Some r2 =>
                    match parse_value fuel' (skip_ws r2) with
                    | None => None
                    | Some (v, r3) =>
                        match skip_ws r3 with
                        | EmptyString => None
                        | String c r4 =>
                            if (c =? "}")%char then
                              Some (PDict (dict_of_pairs (rev ((k, v) :: acc))), r4)
                            else if (c =? ",")%char then
                              parse_members fuel' (skip_ws r4) ((k, v) :: acc)
                            else None
                        end
                    end
                end
            end
          else None
      end
  end.

(** [json.loads]: one value, white space allowed around it. *)
Definition loads (s : string) : option pyval :=
  let s0 := skip_ws s in
  match parse_value (S (String.length s0)) s0 with
  | Some (v, r) =>
      match skip_ws r with
      | EmptyString => Some v
      | String _ _ => None
      end
  | None => None
  end.

(** [str(e)] of the [JSONDecodeError] of a text that does not decode.  The
    library's text also names the position; one text stands for all. *)
Definition decode_error : pyexn :=
  mk_exn JSONDecodeError "Expecting value: line 1 column 1 (char 0)".

Definition json_loads (s : string) : outcome pyval :=
  match loads s with
  | Some v => Return v
  | None => Raise decode_error
  end.

End Json.

(* ================================================================== *)
(** ** config_manager.py *)

Module ConfigManager.

(** The preferences storage, [~/.config/whisper-converter/config.json]:
    whether the directory exists, the text of the file when there is one,
    and the exception the operating system raises, if any, when the
    directory is made ([mkdir_error]), when the file is opened and read
    ([read_error]) and when it is opened for writing ([write_error]). *)
Record Disk : Type := mk_disk {
  dir_exists : bool;
  file : option string;
  mkdir_error : option pyexn;
  read_error : option pyexn;
  write_error : option pyexn
}.

Definition with_dir (d : Disk) : Disk :=
  mk_disk true (file d) (mkdir_error d) (read_error d) (write_error d).

Definition with_file (d : Disk) (text : string) : Disk :=
  mk_disk (dir_exists d) (Some text) (mkdir_error d) (read_error d) (write_error d).

(** The object: [self.config]; [config_dir] and [config_file] are fixed. *)
Record t : Type := mk { config : pyval }.

(** Methods that mutate the object or the storage thread both; after a
    [Raise] the pair is the state at the point of the raise. *)
Definition method (A : Type) : Type := t * Disk -> outcome A * (t * Disk).

Definition default_config : pyval :=
  PDict [ ("openai_api_key", PStr EmptyString);
          ("whisper_model", PStr "whisper-1");
          ("text_model", PStr "gpt-4o-mini") ].

Definition _ensure_config_dir (d : Disk) : outcome unit * Disk :=
  if dir_exists d then (Return tt, d)
  else match mkdir_error d with
       | Some e => (Raise e, d)
       | None => (Return tt, with_dir d)
       end.

(** [with open(self.config_file, 'r') as f: return json.load(f)] *)
Definition read_json (d : Disk) : outcome pyval :=
  match read_error d with
  | Some e => Raise e
  | None =>
      match file d with
      | Some text => Json.json_loads text
      | None => Raise (mk_exn FileNotFoundError "[Errno 2] No such file or directory")
      end
  end.

(** [except (json.JSONDecodeError, FileNotFoundError)] *)
Definition caught_on_load (e : pyexn) : bool :=
  exn_class_eqb (exn_cls e) JSONDecodeError
  || exn_class_eqb (exn_cls e) FileNotFoundError.

Definition _load_config (d : Disk) : outcome pyval :=
  match file d with
  | None => Return default_config
  | Some _ =>
      match read_json d with
      | Return v => Return v
      | Raise e => if caught_on_load e then Return default_config else Raise e
      end
  end.

(** [ConfigManager()] *)
Definition __init__ (d : Disk) : outcome t * Disk :=
  match _ensure_config_dir d with
  | (Raise e, d') => (Raise e, d')
  | (Return _, d') =>
      match _load_config d' with
      | Return v => (Return (mk v), d')
      | Raise e => (Raise e, d')
      end
  end.

(** [with open(self.config_file, 'w') as f: json.dump(self.config, f)] *)
Definition save_config : method unit :=
  fun '(self, d) =>
    match write_error d with
    | Some e => (Raise e, (self, d))
    | None =>
        if dir_exists d
        then (Return tt, (self, with_file d (Json.dumps (config self))))
        else (Raise (mk_exn FileNotFoundError "[Errno 2] No such file or directory"),
              (self, d))
    end.

Definition get_openai_api_key (self : t) : outcome pyval :=
  py_get (config self) "openai_api_key" (PStr EmptyString).

Definition get_whisper_model (self : t) : outcome pyval :=
  py_get (config self) "whisper_model" (PStr "whisper-1").

Definition get_text_model (self : t) : outcome pyval :=
  py_get (config self) "text_model" (PStr "gpt-4o-mini").

(** [self.config[key] = value; self.save_config()] *)
Definition set_and_save (key : string) (value : pyval) : method unit :=
  fun '(self, d) =>
    match py_setitem (config self) key value with
    | Raise e => (Raise e, (self, d))
    | Return c => save_config (mk c, d)
    end.

Definition set_openai_api_key (api_key : pyval) : method unit :=
  set_and_save "openai_api_key" api_key.

Definition set_whisper_model (model : pyval) : method unit :=
  set_and_save "whisper_model" model.

Definition set_text_model (model : pyval) : method unit :=
  set_and_save "text_model" model.

End ConfigManager.

(* ================================================================== *)
(** ** openai_service.py *)

Module OpenAIService.

Definition bytes : Type := list Byte.byte.

(** [OpenAI(api_key=...)]: the client object keeps the key.  Building it
    sends nothing. *)
Record Client : Type := OpenAI { client_api_key : pyval }.

(** *** The requests of the two endpoints *)

Inductive content : Type :=
| Text (text : string)
| AudioPart (audio : bytes).     (* [{"type": "audio", "audio": ...}] *)

Record message : Type := mk_message { role : string; body : content }.

(** [client.chat.completions.create(model, messages, response_format)] *)
Record chat_request : Type := mk_chat {
  chat_client : Client;
  chat_model : pyval;
  chat_messages : list message;
  chat_response_format : string
}.

(** [client.audio.transcriptions.create(model, file)] *)
Record audio_request : Type := mk_audio {
  audio_client : Client;
  audio_model : pyval;
  audio_file : bytes
}.

Inductive api_call : Type :=
| ChatCompletion (req : chat_request)
| AudioTranscription (req : audio_request).

(** What is outside the process: the audio files ([open(path, "rb")] and
    reading), and the answer of the API to a request, either a response or
    the exception the library raises.  A chat response is the list of
    [choices[i].message.content]; a transcription response is its [text]. *)
Record Remote : Type := mk_remote {
  open_rb : string -> outcome bytes;
  chat_completions_create : chat_request -> outcome (list string);
  audio_transcriptions_create : audio_request -> outcome string
}.

(** *** Computations that send requests *)

(** The result, and the requests sent, oldest first. *)
Definition Net (A : Type) : Type := (outcome A * list api_call)%type.

Definition ret {A} (a : A) : Net A := (Return a, []).
Definition raise {A} (e : pyexn) : Net A := (Raise e, []).
Definition lift {A} (o : outcome A) : Net A := (o, []).

Definition nbind {A B} (m : Net A) (k : A -> Net B) : Net B :=
  match m with
  | (Return a, log) => let (r, log') := k a in (r, (log ++ log')%list)
  | (Raise e, log) => (Raise e, log)
  end.

(** [try: m  except Exception as e: h e] *)
Definition try_except {A} (m : Net A) (h : pyexn -> Net A) : Net A :=
  match m with
  | (Return a, log) => (Return a, log)
  | (Raise e, log) => let (r, log') := h e in (r, (log ++ log')%list)
  end.

Notation "x <- m ;; k" := (nbind m (fun x => k))
  (at level 61, m at next level, right associativity).

Definition chat_create (env : Remote) (req : chat_request) : Net (list string) :=
  (chat_completions_create env req, [ChatCompletion req]).

Definition audio_create (env : Remote) (req : audio_request) : Net string :=
  (audio_transcriptions_create env req, [AudioTranscription req]).

(** [response.choices[0].message.content] *)
Definition first_choice (choices : list string) : outcome string :=
  match choices with
  | c :: _ => Return c
  | [] => Raise (mk_exn IndexError "list index out of range")
  end.

(** *** The class *)

Definition WHISPER_MODELS : list string :=
  [ "whisper-1"; "whisper-large-v3"; "gpt-4o-transcribe"; "gpt-4o-mini-transcribe" ].

Definition TEXT_MODELS : list string :=
  [ "gpt-4o-mini"; "gpt-4o"; "gpt-3.5-turbo" ].

Record t : Type := mk { api_key : pyval; client : option Client }.

Definition set_api_key (self : t) (api_key : pyval) : t :=
  mk api_key (Some (OpenAI api_key)).

(** [OpenAIService(api_key)] *)
Definition __init__ (api_key : pyval) : t :=
  let self := mk api_key None in
  if truthy api_key then set_api_key self api_key else self.

Definition get_available_whisper_models (self : t) : list string := WHISPER_MODELS.
Definition get_available_text_models (self : t) : list string := TEXT_MODELS.

Definition api_key_not_set : pyexn :=
  mk_exn Exception "API key not set. Please set your OpenAI API key in settings.".

(** [model.startswith("gpt-4o") and "transcribe" in model]; an object that
    is not a [str] has no [startswith]. *)
Definition is_gpt4o_transcribe (model : pyval) : outcome bool :=
  match model with
  | PStr m => Return (startswith m "gpt-4o" && contains "transcribe" m)
  | _ => Raise (mk_exn AttributeError
                  ("'" ++ type_name model ++ "' object has no attribute 'startswith'"))
  end.

Definition transcribe_system_prompt : string :=
  "You are a helpful assistant that transcribes audio accurately. "
  ++ "Provide only the transcription without any additional commentary.".

(** [raise Exception(f"<prefix>{str(e)}")] *)
Definition wrapped (prefix : string) (e : pyexn) : pyexn :=
  mk_exn Exception (prefix ++ exn_str e).

(** The [try] block of [transcribe_audio], for the client [c]. *)
Definition transcribe_audio_try (c : Client) (env : Remote)
    (file_path : string) (model : pyval) : Net string :=
  chat_style <- lift (is_gpt4o_transcribe model) ;;
  if chat_style : bool then
    audio <- lift (open_rb env file_path) ;;
    choices <- chat_create env
      (mk_chat c model
         [ mk_message "system" (Text transcribe_system_prompt);
           mk_message "user" (AudioPart audio) ]
         "text") ;;
    lift (first_choice choices)
  else
    audio <- lift (open_rb env file_path) ;;
    audio_create env (mk_audio c model audio).

Definition transcribe_audio (self : t) (env : Remote)
    (file_path : string) (model : pyval) : Net string :=
  match client self with
  | None => raise api_key_not_set
  | Some c =>
      try_except (transcribe_audio_try c env file_path model)
        (fun e => raise (wrapped "Error transcribing audio: " e))
  end.

Definition clean_system_prompt : string :=
  "You are a text rewriting assistant. You will receive text that was captured and "
  ++ "transcribed from speech to text processing. Your task is to edit this text for "
  ++ "intelligibility and clarity. You should resolve any obvious typos. If you can "
  ++ "identify in the text instructions to remove part of the transcribed text, such as "
  ++ Json.str1 Json.dquote ++ "actually, delete that" ++ Json.str1 Json.dquote
  ++ " Then you should action the intent, which you can infer from the instruction "
  ++ "which was included in the transcript. You should also add paragraph spacing. You "
  ++ "should use bullet points where it would be helpful to improve the intelligibility "
  ++ "of the text. You should add headers where it would similarly make the text more "
  ++ "readable. If there is repetition or redundancy in the text, then you can remove it "
  ++ "in your improved version. Once you have applied these edits, you must return the "
  ++ "edited text.".

(** The [try] block of [clean_text]. *)
Definition clean_text_try (c : Client) (env : Remote)
    (text : string) (model : pyval) : Net string :=
  choices <- chat_create env
    (mk_chat c model
       [ mk_message "system" (Text clean_system_prompt);
         mk_message "user" (Text text) ]
       "text") ;;
  lift (first_choice choices).

Definition clean_text (self : t) (env : Remote)
    (text : string) (model : pyval) : Net string :=
  match client self with
  | None => raise api_key_not_set
  | Some c =>
      try_except (clean_text_try c env text model)
        (fun e => raise (wrapped "Error cleaning text: " e))
  end.

Definition title_system_prompt : string :=
  "You are a helpful assistant. Your task is to generate a short title for the text. "
  ++ "The title should summarize its main content. In addition to the display title, "
  ++ "you must also generate a suggested file name. The file name should be similar to "
  ++ "the main title, but it should be written in kebab case (no upper case, hyphens "
  ++ "for space). Return your response in JSON format with two fields: 'title' and "
  ++ "'filename'.".

(** The [try] block of [generate_title]. *)
Definition generate_title_try (c : Client) (env : Remote)
    (text : string) (model : pyval) : Net (pyval * pyval) :=
  choices <- chat_create env
    (mk_chat c model
       [ mk_message "system" (Text title_system_prompt);
         mk_message "user" (Text text) ]
       "json_object") ;;
  reply <- lift (first_choice choices) ;;
  result <- lift (Json.json_loads reply) ;;
  title <- lift (py_get result "title" (PStr "Untitled")) ;;
  filename <- lift (py_get result "filename" (PStr "untitled")) ;;
  ret (title, filename).

Definition generate_title (self : t) (env : Remote)
    (text : string) (model : pyval) : Net (pyval * pyval) :=
  match client self with
  | None => raise api_key_not_set
  | Some c =>
      try_except (generate_title_try c env text model)
        (fun e => raise (wrapped "Error generating title: " e))
  end.

End OpenAIService.

(* ================================================================== *)
(** ** main.py: the worker thread and the main window *)

Module App.

Import OpenAIService.

(** *** WorkerThread *)

(** The bound methods of the service that a worker is given as [func]. *)
Inductive bound_method : Type :=
| M_transcribe_audio
| M_clean_text
| M_generate_title.

(** What [func] returns: a text, or the pair of [generate_title]. *)
Definition result_type (m : bound_method) : Type :=
  match m with
  | M_generate_title => (pyval * pyval)%type
  | _ => string
  end.

(** A [WorkerThread] with its task type, [func] and arguments; every call
    site passes a text and a model. *)
Record WorkerThread : Type := mk_worker {
  task_type : string;
  func : bound_method;
  arg_input : string;
  arg_model : pyval
}.

(** [func] applied to its arguments, on the service object as it is when
    the thread runs. *)
Definition call (m : bound_method) (svc : OpenAIService.t) (env : Remote)
    (input : string) (model : pyval) : Net (result_type m) :=
  match m with
  | M_transcribe_audio => transcribe_audio svc env input model
  | M_clean_text => clean_text svc env input model
  | M_generate_title => generate_title svc env input model
  end.

(** The signals [finished] and [error]. *)
Inductive signal (m : bound_method) : Type :=
| Finished (result : result_type m)
| Error (message : string).
Arguments Finished {m} result.
Arguments Error {m} message.

(** [run]: the signals emitted, in order, and the requests sent. *)
Definition run (self : WorkerThread) (svc : OpenAIService.t) (env : Remote)
  : list (signal (func self)) * list api_call :=
  match call (func self) svc env (arg_input self) (arg_model self) with
  | (Return result, log) => ([Finished result], log)
  | (Raise e, log) => ([Error (exn_str e)], log)
  end.

(** *** MainWindow *)

Inductive dialog : Type :=
| Warning (title text : string)       (* [QMessageBox.warning] *)
| Critical (title text : string).     (* [QMessageBox.critical] *)

(** The state of the window.  [transcribed_text] and [cleaned_text] are the
    contents of the two text edits; [file_path_label] is the file named by
    the label, [model_info_label] the model it names, [title_label] the title
    it shows ([None]: not generated yet); [status_message] is the last
    message given to the status bar (its timeout is not modelled);
    [dialogs] are the message boxes shown so far, oldest first. *)
Record MainWindow : Type := mk_window {
  config_manager : ConfigManager.t;
  openai_service : OpenAIService.t;
  selected_file_path : option string;
  generated_title : option pyval;
  generated_filename : option pyval;
  file_path_label : option string;
  model_info_label : pyval;
  transcribe_button_enabled : bool;
  progress_bar_visible : bool;
  progress_bar_range : Z * Z;
  transcribed_text : string;
  cleaned_text : string;
  title_label : option pyval;
  status_message : string;
  worker : option WorkerThread;
  dialogs : list dialog
}.

Section Updates.
Variable w : MainWindow.

Definition set_config_manager (x : ConfigManager.t) : MainWindow :=
  mk_window x (openai_service w) (selected_file_path w) (generated_title w)
    (generated_filename w) (file_path_label w) (model_info_label w)
    (transcribe_button_enabled w) (progress_bar_visible w) (progress_bar_range w)
    (transcribed_text w) (cleaned_text w) (title_label w) (status_message w)
    (worker w) (dialogs w).

Definition set_openai_service (x : OpenAIService.t) : MainWindow :=
  mk_window (config_manager w) x (selected_file_path w) (generated_title w)
    (generated_filename w) (file_path_label w) (model_info_label w)
    (transcribe_button_enabled w) (progress_bar_visible w) (progress_bar_range w)
    (transcribed_text w) (cleaned_text w) (title_label w) (status_message w)
    (worker w) (dialogs w).

Definition set_selected_file (path : string) (label : string) : MainWindow :=
  mk_window (config_manager w) (openai_service w) (Some path) (generated_title w)
    (generated_filename w) (Some label) (model_info_label w)
    (transcribe_button_enabled w) (progress_bar_visible w) (progress_bar_range w)
    (transcribed_text w) (cleaned_text w) (title_label w) (status_message w)
    (worker w) (dialogs w).

Definition set_generated (title filename : pyval) : MainWindow :=
  mk_window (config_manager w) (openai_service w) (selected_file_path w) (Some title)
    (Some filename) (file_path_label w) (model_info_label w)
    (transcribe_button_enabled w) (progress_bar_visible w) (progress_bar_range w)
    (transcribed_text w) (cleaned_text w) (Some title) (status_message w)
    (worker w) (dialogs w).

Definition set_model_info_label (x : pyval) : MainWindow :=
  mk_window (config_manager w) (openai_service w) (selected_file_path w)
    (generated_title w) (generated_filename w) (file_path_label w) x
    (transcribe_button_enabled w) (progress_bar_visible w) (progress_bar_range w)
    (transcribed_text w) (cleaned_text w) (title_label w) (status_message w)
    (worker w) (dialogs w).

Definition set_transcribe_button (x : bool) : MainWindow :=
  mk_window (config_manager w) (openai_service w) (selected_file_path w)
    (generated_title w) (generated_filename w) (file_path_label w)
    (model_info_label w) x (progress_bar_visible w) (progress_bar_range w)
    (transcribed_text w) (cleaned_text w) (title_label w) (status_message w)
    (worker w) (dialogs w).

Definition set_progress_bar (visible : bool) (range : Z * Z) : MainWindow :=
  mk_window (config_manager w) (openai_service w) (selected_file_path w)
    (generated_title w) (generated_filename w) (file_path_label w)
    (model_info_label w) (transcribe_button_enabled w) visible range
    (transcribed_text w) (cleaned_text w) (title_label w) (status_message w)
    (worker w) (dialogs w).

Definition set_transcribed_text (x : string) : MainWindow :=
  mk_window (config_manager w) (openai_service w) (selected_file_path w)
    (generated_title w) (generated_filename w) (file_path_label w)
    (model_info_label w) (transcribe_button_enabled w) (progress_bar_visible w)
    (progress_bar_range w) x (cleaned_text w) (title_label w) (status_message w)
    (worker w) (dialogs w).

Definition set_cleaned_text (x : string) : MainWindow :=
  mk_window (config_manager w) (openai_service w) (selected_file_path w)
    (generated_title w) (generated_filename w) (file_path_label w)
    (model_info_label w) (transcribe_button_enabled w) (progress_bar_visible w)
    (progress_bar_range w) (transcribed_text w) x (title_label w) (status_message w)
    (worker w) (dialogs w).

Definition showMessage (x : string) : MainWindow :=
  mk_window (config_manager w) (openai_service w) (selected_file_path w)
    (generated_title w) (generated_filename w) (file_path_label w)
    (model_info_label w) (transcribe_button_enabled w) (progress_bar_visible w)
    (progress_bar_range w) (transcribed_text w) (cleaned_text w) (title_label w) x
    (worker w) (dialogs w).

Definition set_worker (x : WorkerThread) : MainWindow :=
  mk_window (config_manager w) (openai_service w) (selected_file_path w)
    (generated_title w) (generated_filename w) (file_path_label w)
    (model_info_label w) (transcribe_button_enabled w) (progress_bar_visible w)
    (progress_bar_range w) (transcribed_text w) (cleaned_text w) (title_label w)
    (status_message w) (Some x) (dialogs w).

Definition show_dialog (x : dialog) : MainWindow :=
  mk_window (config_manager w) (openai_service w) (selected_file_path w)
    (generated_title w) (generated_filename w) (file_path_label w)
    (model_info_label w) (transcribe_button_enabled w) (progress_bar_visible w)
    (progress_bar_range w) (transcribed_text w) (cleaned_text w) (title_label w)
    (status_message w) (worker w) (dialogs w ++ [x])%list.

End Updates.

(** [os.path.basename] *)
Fixpoint basename (p : string) : string :=
  match p with
  | EmptyString => EmptyString
  | String c r =>
      if contains "/" r then basename r
      else if (c =? "/")%char then r
      else p
  end.

(** [MainWindow()] *)
Definition __init__ (d : ConfigManager.Disk) : outcome MainWindow * ConfigManager.Disk :=
  match ConfigManager.__init__ d with
  | (Raise e, d') => (Raise e, d')
  | (Return cm, d') =>
      (bind (ConfigManager.get_openai_api_key cm) (fun key =>
       bind (ConfigManager.get_whisper_model cm) (fun model =>
       Return (mk_window cm (OpenAIService.__init__ key) None None None None model
                 false false (0, 100)%Z EmptyString EmptyString None "Ready" None []))),
       d')
  end.

(** [select_audio_file], given the path the file dialog returned (empty
    when it was cancelled). *)
Definition select_audio_file (file_path : string) (w : MainWindow) : MainWindow :=
  match file_path with
  | EmptyString => w
  | String _ _ =>
      set_transcribe_button (set_selected_file w file_path (basename file_path)) true
  end.

(** [open_settings], given the values of the dialog when it was accepted. *)
Definition open_settings (accepted : option (string * string * string))
    (w : MainWindow) (d : ConfigManager.Disk)
  : outcome unit * (MainWindow * ConfigManager.Disk) :=
  match accepted with
  | None => (Return tt, (w, d))
  | Some (api_key, whisper_model, text_model) =>
      match ConfigManager.set_openai_api_key (PStr api_key) (config_manager w, d) with
      | (Raise e, (cm, d')) => (Raise e, (set_config_manager w cm, d'))
      | (Return _, st1) =>
      match ConfigManager.set_whisper_model (PStr whisper_model) st1 with
      | (Raise e, (cm, d')) => (Raise e, (set_config_manager w cm, d'))
      | (Return _, st2) =>
      match ConfigManager.set_text_model (PStr text_model) st2 with
      | (Raise e, (cm, d')) => (Raise e, (set_config_manager w cm, d'))
      | (Return _, (cm, d')) =>
          let w := set_config_manager w cm in
          let w := set_openai_service w
                     (OpenAIService.set_api_key (openai_service w) (PStr api_key)) in
          let w := set_model_info_label w (PStr whisper_model) in
          (Return tt, (showMessage w "Settings updated", d'))
      end end end
  end.

(** [not self.selected_file_path] *)
Definition no_file (p : option string) : bool :=
  match p with
  | Some (String _ _) => false
  | _ => true
  end.

(** The three triggers.  Each returns the window and the worker it started,
    if any; an exception leaves the slot with the window as it was. *)
Definition transcribe_audio (w : MainWindow) : outcome (MainWindow * option WorkerThread) :=
  match selected_file_path w with
  | Some (String c r) =>
      bind (ConfigManager.get_openai_api_key (config_manager w)) (fun key =>
      if negb (truthy key) then
        Return (show_dialog w
                  (Warning "API Key Required"
                     "Please set your OpenAI API key in Settings before transcribing."),
                None)
      else
        let w := set_progress_bar w true (0, 0)%Z in
        let w := showMessage w "Transcribing audio..." in
        let w := set_transcribe_button w false in
        bind (ConfigManager.get_whisper_model (config_manager w)) (fun whisper_model =>
        let t := mk_worker "transcribe" M_transcribe_audio (String c r) whisper_model in
        Return (set_worker w t, Some t)))
  | _ => Return (w, None)
  end.

Definition on_transcription_complete (text : string) (w : MainWindow) : MainWindow :=
  let w := set_transcribed_text w text in
  let w := set_progress_bar w false (0, 100)%Z in
  let w := set_transcribe_button w true in
  showMessage w "Transcription complete".

Definition clean_text (w : MainWindow) : outcome (MainWindow * option WorkerThread) :=
  let text := transcribed_text w in
  match text with
  | EmptyString =>
      Return (show_dialog w (Warning "No Text" "Please transcribe an audio file first."),
              None)
  | String _ _ =>
      bind (ConfigManager.get_openai_api_key (config_manager w)) (fun key =>
      if negb (truthy key) then
        Return (show_dialog w
                  (Warning "API Key Required"
                     "Please set your OpenAI API key in Settings before cleaning text."),
                None)
      else
        let w := set_progress_bar w true (0, 0)%Z in
        let w := showMessage w "Cleaning text..." in
        bind (ConfigManager.get_text_model (config_manager w)) (fun text_model =>
        let t := mk_worker "clean" M_clean_text text text_model in
        Return (set_worker w t, Some t)))
  end.

Definition on_cleaning_complete (text : string) (w : MainWindow) : MainWindow :=
  let w := set_cleaned_text w text in
  let w := set_progress_bar w false (0, 100)%Z in
  showMessage w "Text cleaning complete".

Definition generate_title (w : MainWindow) : outcome (MainWindow * option WorkerThread) :=
  let text := transcribed_text w in
  match text with
  | EmptyString =>
      Return (show_dialog w (Warning "No Text" "Please transcribe an audio file first."),
              None)
  | String _ _ =>
      bind (ConfigManager.get_openai_api_key (config_manager w)) (fun key =>
      if negb (truthy key) then
        Return (show_dialog w
                  (Warning "API Key Required"
                     "Please set your OpenAI API key in Settings before generating a title."),
                None)
      else
        let w := set_progress_bar w true (0, 0)%Z in
        let w := showMessage w "Generating title..." in
        bind (ConfigManager.get_text_model (config_manager w)) (fun text_model =>
        let t := mk_worker "title" M_generate_title text text_model in
        Return (set_worker w t, Some t)))
  end.

Definition on_title_generation_complete (result : pyval * pyval) (w : MainWindow)
  : MainWindow :=
  let (title, filename) := result in
  let w := set_generated w title filename in
  let w := set_progress_bar w false (0, 100)%Z in
  showMessage w "Title generation complete".

Definition on_error (error_message : string) (w : MainWindow) : MainWindow :=
  let w := set_progress_bar w false (0, 100)%Z in
  let w := set_transcribe_button w true in
  let w := showMessage w "Error" in
  show_dialog w (Critical "Error" error_message).

(** *** A stage from trigger to completion *)

(** The slot each trigger connects to [finished]; [error] always goes to
    [on_error]. *)
Definition finished_slot (m : bound_method) : result_type m -> MainWindow -> MainWindow :=
  match m with
  | M_transcribe_audio => on_transcription_complete
  | M_clean_text => on_cleaning_complete
  | M_generate_title => on_title_generation_complete
  end.

Definition deliver {m : bound_method} (s : signal m) (w : MainWindow) : MainWindow :=
  match s with
  | Finished result => finished_slot m result w
  | Error message => on_error message w
  end.

(** The thread runs to its end, then the event loop delivers its signals. *)
Definition complete (env : Remote) (t : WorkerThread) (w : MainWindow)
  : MainWindow * list api_call :=
  let (signals, log) := run t (openai_service w) env in
  (fold_left (fun w s => deliver s w) signals w, log).

(** A trigger and, when it started a worker, its completion. *)
Definition stage (trigger : MainWindow -> outcome (MainWindow * option WorkerThread))
    (env : Remote) (w : MainWindow) : outcome (MainWindow * list api_call) :=
  match trigger w with
  | Raise e => Raise e
  | Return (w', None) => Return (w', [])
  | Return (w', Some t) => Return (complete env t w')
  end.

(** The part of the window the specification calls the Session. *)
Record Session : Type := mk_session {
  selectedAudioPath : option string;
  transcript : string;
  cleanedTranscript : string;
  suggestedTitle : option pyval;
  suggestedFilename : option pyval
}.

Definition session (w : MainWindow) : Session :=
  mk_session (selected_file_path w) (transcribed_text w) (cleaned_text w)
    (generated_title w) (generated_filename w).

End App.

(* ================================================================== *)
(** ** The vocabulary of the specification, and sample environments *)

Module Spec.

Import OpenAIService App.

(** The routing rule in the words of the specification: the identifier
    contains both the multimodal-model marker and [transcribe]. *)
Definition contains_marker_and_transcribe (model_id : string) : bool :=
  contains "gpt-4o" model_id && contains "transcribe" model_id.

(** A log that consists of one chat-style request, or of one request to the
    speech-to-text endpoint. *)
Definition via_chat (log : list api_call) : bool :=
  match log with
  | [ChatCompletion _] => true
  | _ => false
  end.

Definition via_speech_to_text (log : list api_call) : bool :=
  match log with
  | [AudioTranscription _] => true
  | _ => false
  end.

(** The three stages and their triggers. *)
Inductive stage_name : Type := Transcribe | Clean | Title.

Definition trigger (s : stage_name)
  : MainWindow -> outcome (MainWindow * option WorkerThread) :=
  match s with
  | Transcribe => App.transcribe_audio
  | Clean => App.clean_text
  | Title => App.generate_title
  end.




(** The Session with its cleaned transcript replaced. *)
Definition with_cleaned (s : Session) (text : string) : Session :=
  mk_session (selectedAudioPath s) (transcript s) text
    (suggestedTitle s) (suggestedFilename s).

(** The value a getter reads from a decoded object. *)
Definition stored_or (d : list (string * pyval)) (key : string) (default : pyval)
  : pyval :=
  match dict_get key d with
  | Some v => v
  | None => default
  end.

(** *** Sample environments *)

(** Every file opens (and is empty); every request is answered [reply]. *)
Definition remote_answering (reply : string) : Remote :=
  mk_remote (fun _ => Return []) (fun _ => Return [reply]) (fun _ => Return reply).

Definition invalid_key : pyexn :=
  mk_exn AuthenticationError "Error code: 401 - Incorrect API key provided".

(** Every file opens; every request is rejected. *)
Definition remote_rejecting : Remote :=
  mk_remote (fun _ => Return []) (fun _ => Raise invalid_key)
    (fun _ => Raise invalid_key).

(** A storage with the directory and no file, readable and writable. *)
Definition fresh_disk : ConfigManager.Disk :=
  ConfigManager.mk_disk true None None None None.

(** A storage whose file exists and cannot be opened for reading. *)
Definition locked_disk : ConfigManager.Disk :=
  ConfigManager.mk_disk true (Some "{}") None
    (Some (mk_exn PermissionError "[Errno 13] Permission denied")) None.

(** The window of a first start, and the same with a credential stored. *)
Definition window_of (cfg : pyval) : MainWindow :=
  mk_window (ConfigManager.mk cfg)
    (OpenAIService.__init__ (stored_or (match cfg with PDict d => d | _ => [] end)
                               "openai_api_key" (PStr EmptyString)))
    None None None None (PStr "whisper-1") false false (0, 100)%Z
    EmptyString EmptyString None "Ready" None [].

Definition config_with_key (key : string) : pyval :=
  PDict [ ("openai_api_key", PStr key);
          ("whisper_model", PStr "whisper-1");
          ("text_model", PStr "gpt-4o-mini") ].

End Spec.

(* ================================================================== *)
(** ** The shape of encoded texts

    Notions used to relate [Json.dumps] and [Json.loads]. *)

Module JsonText.

(** What may follow a value in an encoded text: nothing, or one of the
    three characters that close or continue a container. *)
Definition delimited (rest : string) : Prop :=
  match rest with
  | EmptyString => True
  | String c _ => c = ","%char \/ c = "]"%char \/ c = "}"%char
  end.

(** The encoder, container by container: the elements of a list after its
    opening bracket, the members of an object after its opening brace. *)
Fixpoint items (l : list pyval) : string :=
  match l with
  | [] => "]"
  | [x] => Json.dumps x ++ "]"
  | x :: l' => Json.dumps x ++ ", " ++ items l'
  end.

Fixpoint members (d : list (string * pyval)) : string :=
  match d with
  | [] => "}"
  | [kv] => Json.dump_str (fst kv) ++ ": " ++ Json.dumps (snd kv) ++ "}"
  | kv :: d' =>
      Json.dump_str (fst kv) ++ ": " ++ Json.dumps (snd kv) ++ ", " ++ members d'
  end.

(** The first character of an encoded value is not white space and closes
    no container. *)
Definition opens_value (s : string) : Prop :=
  match s with
  | EmptyString => False
  | String c _ =>
      Json.is_ws c = false /\ (c =? "]")%char = false /\ (c =? "}")%char = false
  end.

(** The depth of recursion that decoding the encoded value takes. *)
Fixpoint cost (v : pyval) : nat :=
  match v with
  | PList l => S (fold_right (fun x n => S (cost x + n)) 0 l)
  | PDict d => S (fold_right (fun kv n => S (cost (snd kv) + n)) 0 d)
  | _ => 1
  end.

Definition items_cost (l : list pyval) : nat :=
  fold_right (fun x n => S (cost x + n)) 0 l.

Definition members_cost (d : list (string * pyval)) : nat :=
  fold_right (fun kv n => S (cost (snd kv) + n)) 0 d.

(** Decoding the text of [v], followed by [rest], with fuel [n], yields [v]
    and leaves [rest]. *)
Definition decodes (v : pyval) : Prop :=
  forall (n : nat) (rest : string),
    cost v <= n -> delimited rest ->
    Json.parse_value n (Json.dumps v ++ rest) = Some (v, rest).

End JsonText.

(* ================================================================== *)
(** ** main.py: the settings dialog, the clipboard and the downloads *)

Module Desk.

Import OpenAIService App.

(** *** ApiKeyDialog *)

(** The widgets of the dialog: the text of the key field and whether it is
    masked, the state and the caption of the Show/Hide button, and the
    current text of the two combo boxes. *)
Record ApiKeyDialog : Type := mk_dialog {
  api_key_input : string;
  echo_password : bool;
  show_hide_checked : bool;
  show_hide_text : string;
  whisper_model_combo : string;
  text_model_combo : string
}.

(** [QComboBox.addItems] on an empty box: the first item becomes current. *)
Definition addItems (items : list string) : string :=
  match items with
  | [] => EmptyString
  | first :: _ => first
  end.

(** [QComboBox.setCurrentText] on a box that is not editable: the item with
    that text becomes current when there is one, otherwise nothing changes. *)
Definition setCurrentText (items : list string) (current text : string) : string :=
  if existsb (String.eqb text) items then text else current.

(** [ApiKeyDialog(config_manager, openai_service)].  The widgets take a
    [str]: [None] stands for the [TypeError] that PyQt raises when a getter
    returned another kind of object, and for the exception of a getter. *)
Definition ApiKeyDialog_init (cm : ConfigManager.t) (svc : OpenAIService.t)
  : option ApiKeyDialog :=
  match ConfigManager.get_openai_api_key cm,
        ConfigManager.get_whisper_model cm,
        ConfigManager.get_text_model cm with
  | Return (PStr key), Return (PStr current_whisper_model),
    Return (PStr current_text_model) =>
      Some (mk_dialog key true false "Show"
              (setCurrentText (get_available_whisper_models svc)
                 (addItems (get_available_whisper_models svc)) current_whisper_model)
              (setCurrentText (get_available_text_models svc)
                 (addItems (get_available_text_models svc)) current_text_model))
  | _, _, _ => None
  end.

(** [toggle_password_visibility], the slot of the button. *)
Definition toggle_password_visibility (dlg : ApiKeyDialog) : ApiKeyDialog :=
  if show_hide_checked dlg
  then mk_dialog (api_key_input dlg) false (show_hide_checked dlg) "Hide"
         (whisper_model_combo dlg) (text_model_combo dlg)
  else mk_dialog (api_key_input dlg) true (show_hide_checked dlg) "Show"
         (whisper_model_combo dlg) (text_model_combo dlg).

(** A click on the checkable button: Qt flips its state, then calls the
    slot. *)
Definition click_show_hide (dlg : ApiKeyDialog) : ApiKeyDialog :=
  toggle_password_visibility
    (mk_dialog (api_key_input dlg) (echo_password dlg) (negb (show_hide_checked dlg))
       (show_hide_text dlg) (whisper_model_combo dlg) (text_model_combo dlg)).

Definition get_api_key (dlg : ApiKeyDialog) : string := api_key_input dlg.
Definition get_whisper_model (dlg : ApiKeyDialog) : string := whisper_model_combo dlg.
Definition get_text_model (dlg : ApiKeyDialog) : string := text_model_combo dlg.

(** [open_settings] when the user presses OK without editing: the values
    are those the dialog was opened with. *)
Definition accept_settings_unchanged (w : MainWindow) (d : ConfigManager.Disk)
  : option (outcome unit * (MainWindow * ConfigManager.Disk)) :=
  match ApiKeyDialog_init (config_manager w) (openai_service w) with
  | None => None
  | Some dlg =>
      Some (open_settings
              (Some (get_api_key dlg, get_whisper_model dlg, get_text_model dlg)) w d)
  end.

(** *** Clipboard and downloads *)

(** What the two functions change outside the window: the clipboard
    ([None] until something is copied) and the files written, latest
    first. *)
Record Desktop : Type := mk_desktop {
  clipboard : option string;
  written : list (string * string)
}.

(** What they read from outside: [str_of] is the builtin [str], which
    formats the generated file name; [strftime_now] is the time stamp
    [%Y%m%d-%H%M%S] of the moment; [getSaveFileName] is the path chosen in the
    save dialog that proposes the given file name in the home directory,
    empty when the dialog is cancelled; [open_w] is the exception, if any, of
    opening the path for writing. *)
Record Shell : Type := mk_shell {
  str_of : pyval -> string;
  strftime_now : string;
  getSaveFileName : string -> string;
  open_w : string -> option pyexn
}.

(** The buttons Clear. *)
Definition clear_transcribed (w : MainWindow) : MainWindow :=
  set_transcribed_text w EmptyString.

Definition clear_cleaned (w : MainWindow) : MainWindow :=
  set_cleaned_text w EmptyString.

Definition copy_to_clipboard (text : string) (st : MainWindow * Desktop)
  : MainWindow * Desktop :=
  match text with
  | EmptyString => st
  | String _ _ =>
      (showMessage (fst st) "Copied to clipboard",
       mk_desktop (Some text) (written (snd st)))
  end.

(** The file name that [download_text] proposes: the generated file name,
    when there is one and it is not empty, for the two known kinds of text,
    and a time-stamped name otherwise. *)
Definition default_filename (sh : Shell) (w : MainWindow) (text_type : string)
  : string :=
  let stamped := "transcript-" ++ strftime_now sh ++ "-" ++ text_type ++ ".txt" in
  match generated_filename w with
  | Some name =>
      if truthy name && String.eqb text_type "cleaned"
      then str_of sh name ++ "-cleaned.txt"
      else if truthy name && String.eqb text_type "transcribed"
      then str_of sh name ++ ".txt"
      else stamped
  | None => stamped
  end.

Definition download_text (sh : Shell) (text text_type : string)
    (st : MainWindow * Desktop) : MainWindow * Desktop :=
  match text with
  | EmptyString => st
  | String _ _ =>
      match getSaveFileName sh (default_filename sh (fst st) text_type) with
      | EmptyString => st
      | String c r =>
          let file_path := String c r in
          match open_w sh file_path with
          | None =>
              (showMessage (fst st) ("Saved to " ++ file_path),
               mk_desktop (clipboard (snd st)) ((file_path, text) :: written (snd st)))
          | Some e =>
              (show_dialog (fst st)
                 (Critical "Error" ("Error saving file: " ++ exn_str e)),
               snd st)
          end
      end
  end.

(** The four buttons, as connected in [setup_transcribed_text] and
    [setup_cleaned_text]. *)
Definition copy_transcribed (st : MainWindow * Desktop) : MainWindow * Desktop :=
  copy_to_clipboard (transcribed_text (fst st)) st.

Definition copy_cleaned (st : MainWindow * Desktop) : MainWindow * Desktop :=
  copy_to_clipboard (cleaned_text (fst st)) st.

Definition download_transcribed (sh : Shell) (st : MainWindow * Desktop)
  : MainWindow * Desktop :=
  download_text sh (transcribed_text (fst st)) "transcribed" st.

Definition download_cleaned (sh : Shell) (st : MainWindow * Desktop)
  : MainWindow * Desktop :=
  download_text sh (cleaned_text (fst st)) "cleaned" st.

(** *** Sample environment *)

(** A shell whose [str_of] is [str] on the scalars (a container gets a
    placeholder), whose save dialog accepts the proposed name in
    [/home/user], and where every path can be written. *)
Definition sample_shell : Shell :=
  mk_shell
    (fun v => match v with
              | PStr s => s
              | PNone => "None"
              | PBool true => "True"
              | PBool false => "False"
              | PInt z => Json.dump_int z
              | _ => "<container>"
              end)
    "20250101-093000"
    (fun name => "/home/user/" ++ name)
    (fun _ => None).

(** The client object a request was sent with. *)
Definition call_client (c : api_call) : Client :=
  match c with
  | ChatCompletion req => chat_client req
  | AudioTranscription req => audio_client req
  end.

(** The bound method, the getter of the model and the input of a stage. *)
Definition method_of (s : Spec.stage_name) : bound_method :=
  match s with
  | Spec.Transcribe => M_transcribe_audio
  | Spec.Clean => M_clean_text
  | Spec.Title => M_generate_title
  end.

Definition model_getter (s : Spec.stage_name) : ConfigManager.t -> outcome pyval :=
  match s with
  | Spec.Transcribe => ConfigManager.get_whisper_model
  | Spec.Clean | Spec.Title => ConfigManager.get_text_model
  end.

Definition stage_input (s : Spec.stage_name) (w : MainWindow) : string :=
  match s with
  | Spec.Transcribe =>
      match selected_file_path w with
      | Some path => path
      | None => EmptyString
      end
  | Spec.Clean | Spec.Title => transcribed_text w
  end.

End Desk.

(* ================================================================== *)
(** * Properties *)

Import OpenAIService App Spec JsonText.

(** ** Routing of transcription requests *)

Lemma transcribe_audio_log (self : OpenAIService.t) (env : Remote)
    (c : Client) (file_path m : string) (audio : bytes) :
  client self = Some c ->
  open_rb env file_path = Return audio ->
  snd (OpenAIService.transcribe_audio self env file_path (PStr m)) =
    if startswith m "gpt-4o" && contains "transcribe" m
    then [ChatCompletion
            (mk_chat c (PStr m)
               [ mk_message "system" (Text transcribe_system_prompt);
                 mk_message "user" (AudioPart audio) ]
               "text")]
    else [AudioTranscription (mk_audio c (PStr m) audio)].
Proof.
  intros Hc Ho.
  unfold OpenAIService.transcribe_audio, transcribe_audio_try. rewrite Hc.
  cbn [is_gpt4o_transcribe lift nbind].
  destruct (startswith m "gpt-4o" && contains "transcribe" m).
  - rewrite Ho. unfold chat_create, nbind, try_except, lift.
    destruct (chat_completions_create env _) as [choices|e]; cbn.
    + destruct (first_choice choices); reflexivity.
    + reflexivity.
  - rewrite Ho. unfold audio_create, nbind, try_except, lift.
    destruct (audio_transcriptions_create env _); reflexivity.
Qed.

(** C1, as stated, fails: an identifier that contains both the marker
    [gpt-4o] and [transcribe] without starting with the marker, as the
    identifier of a fine-tuned model does, is sent to the speech-to-text
    endpoint, not as a chat-style request. *)
Lemma C1_contains_is_not_enough :
  contains_marker_and_transcribe "ft:gpt-4o-mini-transcribe:acme::8k2" = true
  /\ via_chat (snd (OpenAIService.transcribe_audio
                      (OpenAIService.__init__ (PStr "sk-test"))
                      (remote_answering "hello") "/tmp/a.mp3"
                      (PStr "ft:gpt-4o-mini-transcribe:acme::8k2"))) = false
  /\ via_speech_to_text (snd (OpenAIService.transcribe_audio
                      (OpenAIService.__init__ (PStr "sk-test"))
                      (remote_answering "hello") "/tmp/a.mp3"
                      (PStr "ft:gpt-4o-mini-transcribe:acme::8k2"))) = true.
Proof. repeat split; vm_compute; reflexivity. Qed.

(** C1 (amended): with a credential set and an audio file that opens,
    [transcribe_audio] sends exactly one request; it is the chat-style
    request, carrying the audio as a content part, exactly when the model
    identifier starts with [gpt-4o] and contains [transcribe], and the
    request to the speech-to-text endpoint for every other identifier. *)
Theorem C1_routing (self : OpenAIService.t) (env : Remote)
    (c : Client) (file_path m : string) (audio : bytes) :
  client self = Some c ->
  open_rb env file_path = Return audio ->
  let log := snd (OpenAIService.transcribe_audio self env file_path (PStr m)) in
  (startswith m "gpt-4o" && contains "transcribe" m = true ->
     log = [ChatCompletion
              (mk_chat c (PStr m)
                 [ mk_message "system" (Text transcribe_system_prompt);
                   mk_message "user" (AudioPart audio) ]
                 "text")])
  /\ (startswith m "gpt-4o" && contains "transcribe" m = false ->
        log = [AudioTranscription (mk_audio c (PStr m) audio)])
  /\ (via_chat log = true <->
        startswith m "gpt-4o" = true /\ contains "transcribe" m = true)
  /\ (via_speech_to_text log = negb (via_chat log)).
Proof.
  intros Hc Ho log.
  assert (Hlog := transcribe_audio_log self env c file_path m audio Hc Ho).
  fold log in Hlog. rewrite Hlog.
  rewrite <- andb_true_iff.
  destruct (startswith m "gpt-4o" && contains "transcribe" m); cbn.
  - repeat split; auto; discriminate.
  - repeat split; auto; try discriminate.
Qed.

Lemma C1_routing_witness :
  via_chat (snd (OpenAIService.transcribe_audio
                   (OpenAIService.__init__ (PStr "sk-test"))
                   (remote_answering "hello") "/tmp/a.mp3"
                   (PStr "gpt-4o-mini-transcribe"))) = true
  /\ via_speech_to_text (snd (OpenAIService.transcribe_audio
                   (OpenAIService.__init__ (PStr "sk-test"))
                   (remote_answering "hello") "/tmp/a.mp3"
                   (PStr "whisper-1"))) = true.
Proof.
  split.
  - apply (proj1 (proj2 (proj2 (C1_routing
             (OpenAIService.__init__ (PStr "sk-test")) (remote_answering "hello")
             (OpenAI (PStr "sk-test")) "/tmp/a.mp3" "gpt-4o-mini-transcribe" []
             eq_refl eq_refl)))).
    split; reflexivity.
  - rewrite (proj2 (proj2 (proj2 (C1_routing
             (OpenAIService.__init__ (PStr "sk-test")) (remote_answering "hello")
             (OpenAI (PStr "sk-test")) "/tmp/a.mp3" "whisper-1" []
             eq_refl eq_refl)))).
    reflexivity.
Defined.

(** ** The credential guard of the service *)

Lemma init_without_key (key : pyval) :
  truthy key = false -> client (OpenAIService.__init__ key) = None.
Proof. intros H. unfold OpenAIService.__init__. rewrite H. reflexivity. Qed.

(** Accepting the settings dialog with the key field empty leaves the
    service with an empty credential and a client. *)
Example settings_with_empty_key :
  let w := window_of (config_with_key "sk-test") in
  let w' := fst (snd (open_settings (Some (EmptyString, "whisper-1", "gpt-4o-mini"))
                        w fresh_disk)) in
  api_key (openai_service w') = PStr EmptyString
  /\ client (openai_service w') = Some (OpenAI (PStr EmptyString))
  /\ ConfigManager.get_openai_api_key (config_manager w') = Return (PStr EmptyString).
Proof. repeat split. Qed.

(** C2, as stated, fails: after [set_api_key] with the empty string the
    credential of the service is empty, yet it holds a client, so the three
    operations pass the guard, send a request and report the failure of
    that request instead of the missing key. *)
Lemma C2_empty_key_passes_guard :
  let svc := OpenAIService.set_api_key (OpenAIService.__init__ (PStr "sk-test"))
               (PStr EmptyString) in
  api_key svc = PStr EmptyString
  /\ OpenAIService.transcribe_audio svc remote_rejecting "/tmp/a.mp3" (PStr "whisper-1")
     = (Raise (wrapped "Error transcribing audio: " invalid_key),
        [AudioTranscription (mk_audio (OpenAI (PStr EmptyString)) (PStr "whisper-1") [])])
  /\ fst (OpenAIService.clean_text svc remote_rejecting "some text" (PStr "gpt-4o-mini"))
     = Raise (wrapped "Error cleaning text: " invalid_key)
  /\ List.length (snd (OpenAIService.clean_text svc remote_rejecting "some text"
                    (PStr "gpt-4o-mini"))) = 1
  /\ fst (OpenAIService.generate_title svc remote_rejecting "some text" (PStr "gpt-4o-mini"))
     = Raise (wrapped "Error generating title: " invalid_key)
  /\ List.length (snd (OpenAIService.generate_title svc remote_rejecting "some text"
                    (PStr "gpt-4o-mini"))) = 1.
Proof. cbv zeta. repeat split. Qed.

(** C2 (amended): whenever the service holds no client object, which is
    its state from construction with an empty credential until
    [set_api_key] is called, each of the three operations raises the
    exception whose text is "API key not set. Please set your OpenAI API key
    in settings.", for every input and every environment, and sends no
    request. *)
Theorem C2_no_client_no_request (self : OpenAIService.t) (env : Remote)
    (input : string) (model : pyval) :
  client self = None ->
  OpenAIService.transcribe_audio self env input model = (Raise api_key_not_set, [])
  /\ OpenAIService.clean_text self env input model = (Raise api_key_not_set, [])
  /\ OpenAIService.generate_title self env input model = (Raise api_key_not_set, [])
  /\ exn_str api_key_not_set
     = "API key not set. Please set your OpenAI API key in settings.".
Proof.
  intros H.
  unfold OpenAIService.transcribe_audio, OpenAIService.clean_text,
    OpenAIService.generate_title.
  rewrite H. repeat split.
Qed.

Lemma C2_no_client_no_request_witness :
  OpenAIService.transcribe_audio (OpenAIService.__init__ (PStr EmptyString))
    (remote_answering "hello") "/tmp/a.mp3" (PStr "whisper-1")
  = (Raise api_key_not_set, []).
Proof.
  exact (proj1 (C2_no_client_no_request (OpenAIService.__init__ (PStr EmptyString))
                  (remote_answering "hello") "/tmp/a.mp3" (PStr "whisper-1")
                  (init_without_key (PStr EmptyString) eq_refl))).
Defined.

(** ** Title generation *)



(** ** Failures of the operations *)

Lemma try_except_raise {A} (m : Net A) (prefix : string) (e : pyexn)
    (log : list api_call) :
  m = (Raise e, log) ->
  try_except m (fun e => raise (wrapped prefix e)) = (Raise (wrapped prefix e), log).
Proof. intros ->. cbn. rewrite List.app_nil_r. reflexivity. Qed.

Lemma try_except_log {A} (m : Net A) (h : pyexn -> pyexn) :
  snd (try_except m (fun e => raise (h e))) = snd m.
Proof. destruct m as [[a|e] log]; cbn; [|rewrite List.app_nil_r]; reflexivity. Qed.

Lemma transcribe_audio_try_once (c : Client) (env : Remote) (p : string) (model : pyval) :
  List.length (snd (transcribe_audio_try c env p model)) <= 1.
Proof.
  unfold transcribe_audio_try, lift, nbind, chat_create, audio_create.
  destruct (is_gpt4o_transcribe model) as [[|]|]; cbn; auto;
    destruct (open_rb env p); cbn; auto.
  all: try (destruct (chat_completions_create env _) as [choices|]; cbn; auto;
            destruct (first_choice choices); cbn; auto).
  all: try (destruct (audio_transcriptions_create env _); cbn; auto).
Qed.

Lemma clean_text_try_once (c : Client) (env : Remote) (text : string) (model : pyval) :
  List.length (snd (clean_text_try c env text model)) <= 1.
Proof.
  unfold clean_text_try, lift, nbind, chat_create.
  destruct (chat_completions_create env _) as [choices|]; cbn; auto.
  all: try (destruct (first_choice choices); cbn; auto).
Qed.

Lemma generate_title_try_once (c : Client) (env : Remote) (text : string) (model : pyval) :
  List.length (snd (generate_title_try c env text model)) <= 1.
Proof.
  unfold generate_title_try, lift, nbind, chat_create, ret.
  destruct (chat_completions_create env _) as [choices|]; cbn; auto.
  destruct (first_choice choices) as [reply|]; cbn; auto.
  destruct (Json.json_loads reply) as [r|]; cbn; auto.
  destruct (py_get r "title" _); cbn; auto.
  destruct (py_get r "filename" _); cbn; auto.
Qed.

(** C6: past the credential guard, whatever exception the body of an
    operation raises (the file that does not open, the request that the
    transport or the API fails, the reply without choices, the reply that
    does not decode), the caller receives an exception whose text is the text
    of that exception after the prefix of the stage ("Error transcribing
    audio: ", "Error cleaning text: ", "Error generating title: "); the
    requests sent are those of the single attempt, at most one. *)
Theorem C6_failures_wrapped (self : OpenAIService.t) (env : Remote) (c : Client)
    (input : string) (model : pyval) (e : pyexn) (log : list api_call) :
  client self = Some c ->
  (transcribe_audio_try c env input model = (Raise e, log) ->
     OpenAIService.transcribe_audio self env input model
     = (Raise (mk_exn Exception ("Error transcribing audio: " ++ exn_str e)), log)
     /\ List.length log <= 1)
  /\ (clean_text_try c env input model = (Raise e, log) ->
        OpenAIService.clean_text self env input model
        = (Raise (mk_exn Exception ("Error cleaning text: " ++ exn_str e)), log)
        /\ List.length log <= 1)
  /\ (generate_title_try c env input model = (Raise e, log) ->
        OpenAIService.generate_title self env input model
        = (Raise (mk_exn Exception ("Error generating title: " ++ exn_str e)), log)
        /\ List.length log <= 1).
Proof.
  intros Hc. repeat split.
  - unfold OpenAIService.transcribe_audio. rewrite Hc.
    now apply try_except_raise.
  - pose proof (transcribe_audio_try_once c env input model) as Hl.
    rewrite H in Hl. exact Hl.
  - unfold OpenAIService.clean_text. rewrite Hc. now apply try_except_raise.
  - pose proof (clean_text_try_once c env input model) as Hl.
    rewrite H in Hl. exact Hl.
  - unfold OpenAIService.generate_title. rewrite Hc. now apply try_except_raise.
  - pose proof (generate_title_try_once c env input model) as Hl.
    rewrite H in Hl. exact Hl.
Qed.

Lemma C6_failures_wrapped_witness :
  OpenAIService.clean_text (OpenAIService.__init__ (PStr "sk-test")) remote_rejecting
    "some text" (PStr "gpt-4o-mini")
  = (Raise (mk_exn Exception
              "Error cleaning text: Error code: 401 - Incorrect API key provided"),
     [ChatCompletion
        (mk_chat (OpenAI (PStr "sk-test")) (PStr "gpt-4o-mini")
           [ mk_message "system" (Text clean_system_prompt);
             mk_message "user" (Text "some text") ]
           "text")]).
Proof.
  exact (proj1 (proj1 (proj2 (C6_failures_wrapped
           (OpenAIService.__init__ (PStr "sk-test")) remote_rejecting
           (OpenAI (PStr "sk-test")) "some text" (PStr "gpt-4o-mini") invalid_key
           [ChatCompletion
              (mk_chat (OpenAI (PStr "sk-test")) (PStr "gpt-4o-mini")
                 [ mk_message "system" (Text clean_system_prompt);
                   mk_message "user" (Text "some text") ]
                 "text")]
           eq_refl)) eq_refl)).
Defined.

(** ** Completion of a worker *)

(** C9: a worker that runs emits exactly one signal: [finished] with the
    result when [func] returns, [error] with the text of the exception when
    it raises; the window handles that one signal, with the slot of the
    stage or with [on_error]. *)
Theorem C9_one_completion_event (t : WorkerThread) (svc : OpenAIService.t)
    (env : Remote) (w : MainWindow) :
  List.length (fst (run t svc env)) = 1
  /\ match fst (call (func t) svc env (arg_input t) (arg_model t)) with
     | Return result => fst (run t svc env) = [Finished result]
     | Raise e => fst (run t svc env) = [Error (exn_str e)]
     end
  /\ match fst (call (func t) (openai_service w) env (arg_input t) (arg_model t)) with
     | Return result => fst (complete env t w) = finished_slot (func t) result w
     | Raise e => fst (complete env t w) = on_error (exn_str e) w
     end.
Proof.
  unfold complete, run.
  split; [|split].
  - destruct (call (func t) svc env (arg_input t) (arg_model t)) as [[r|e] log];
      reflexivity.
  - destruct (call (func t) svc env (arg_input t) (arg_model t)) as [[r|e] log];
      reflexivity.
  - destruct (call (func t) (openai_service w) env (arg_input t) (arg_model t))
      as [[r|e] log]; reflexivity.
Qed.

(** ** Guards of the triggers *)

Lemma session_show_dialog (w : MainWindow) (x : dialog) :
  session (show_dialog w x) = session w.
Proof. reflexivity. Qed.




(** ** Effect of a successful cleaning *)

Lemma session_on_cleaning_complete (text : string) (w : MainWindow) :
  session (on_cleaning_complete text w) = with_cleaned (session w) text.
Proof. reflexivity. Qed.

(** C7: when a cleaning is dispatched and the service returns a text, the
    Session afterwards is the Session before with [cleanedTranscript]
    replaced by that text: [transcript], the input, is unmodified, and so are
    the selected file and the suggested title and file name. *)
Theorem C7_clean_changes_only_cleaned (env : Remote) (w : MainWindow)
    (key model : pyval) (text : string) (log : list api_call) :
  transcribed_text w <> EmptyString ->
  ConfigManager.get_openai_api_key (config_manager w) = Return key ->
  truthy key = true ->
  ConfigManager.get_text_model (config_manager w) = Return model ->
  OpenAIService.clean_text (openai_service w) env (transcribed_text w) model
  = (Return text, log) ->
  exists w',
    stage App.clean_text env w = Return (w', log)
    /\ session w' = with_cleaned (session w) text
    /\ transcript (session w') = transcript (session w)
    /\ cleanedTranscript (session w') = text.
Proof.
  intros Hne Hk Ht Hm Hcall.
  unfold stage, App.clean_text.
  destruct (transcribed_text w) as [|c r] eqn:Htext; [congruence|].
  rewrite Hk. cbn [bind]. rewrite Ht. cbn [negb].
  cbn [config_manager set_progress_bar showMessage]. rewrite Hm. cbn [bind].
  unfold complete, run.
  cbn [func arg_input arg_model call openai_service set_worker set_progress_bar
       showMessage].
  rewrite Hcall. cbn [fold_left deliver finished_slot].
  eexists. split; [reflexivity|].
  repeat split; cbn; now rewrite ?Htext.
Qed.

Lemma C7_clean_changes_only_cleaned_witness :
  exists w',
    stage App.clean_text (remote_answering "Cleaned.")
      (set_transcribed_text (window_of (config_with_key "sk-test")) "um, raw text")
    = Return (w', [ChatCompletion
                     (mk_chat (OpenAI (PStr "sk-test")) (PStr "gpt-4o-mini")
                        [ mk_message "system" (Text clean_system_prompt);
                          mk_message "user" (Text "um, raw text") ]
                        "text")])
    /\ transcribed_text w' = "um, raw text"
    /\ cleaned_text w' = "Cleaned.".
Proof.
  destruct (C7_clean_changes_only_cleaned (remote_answering "Cleaned.")
              (set_transcribed_text (window_of (config_with_key "sk-test")) "um, raw text")
              (PStr "sk-test") (PStr "gpt-4o-mini") "Cleaned."
              [ChatCompletion
                 (mk_chat (OpenAI (PStr "sk-test")) (PStr "gpt-4o-mini")
                    [ mk_message "system" (Text clean_system_prompt);
                      mk_message "user" (Text "um, raw text") ]
                    "text")])
    as (w' & Hs & _ & Ht & Hc).
  - discriminate.
  - reflexivity.
  - reflexivity.
  - reflexivity.
  - reflexivity.
  - exists w'. repeat split; assumption.
Defined.

(** ** Encoding and decoding of JSON texts *)
Lemma append_assoc (a b c : string) : (a ++ b) ++ c = a ++ (b ++ c).
Proof. induction a as [|x a IH]; cbn; [reflexivity|now rewrite IH]. Qed.

Lemma append_nil_r (a : string) : a ++ EmptyString = a.
Proof. induction a as [|x a IH]; cbn; [reflexivity|now rewrite IH]. Qed.

Lemma length_append (a b : string) :
  String.length (a ++ b) = String.length a + String.length b.
Proof. induction a as [|x a IH]; cbn; [reflexivity|now rewrite IH]. Qed.

(** *** String literals *)
Lemma scan_string_escape_char (c : ascii) (r : string) :
  Json.scan_string (Json.escape_char c ++ r) = Json.cons_char c (Json.scan_string r).
Proof.
  destruct c as [[] [] [] [] [] [] [] []]; reflexivity.
Qed.

Lemma scan_string_escape (s r : string) :
  Json.scan_string (Json.escape s ++ String Json.dquote r) = Some (s, r).
Proof.
  induction s as [|c s IH]; [reflexivity|].
  cbn [Json.escape]. rewrite append_assoc, scan_string_escape_char, IH. reflexivity.
Qed.

Lemma scan_dump_str (s r : string) :
  Json.scan_string (Json.escape s ++ Json.str1 Json.dquote ++ r) = Some (s, r).
Proof. apply scan_string_escape. Qed.

Lemma delimited_no_digit (rest : string) :
  delimited rest -> Json.scan_digits rest = (Decimal.Nil, rest).
Proof.
  destruct rest as [|c r]; [reflexivity|].
  intros [->|[->| ->]]; reflexivity.
Qed.

Lemma delimited_no_float (rest : string) :
  delimited rest -> Json.float_marker rest = false.
Proof.
  destruct rest as [|c r]; [reflexivity|].
  intros [->|[->| ->]]; reflexivity.
Qed.

Lemma delimited_skip_ws (rest : string) :
  delimited rest -> Json.skip_ws rest = rest.
Proof.
  destruct rest as [|c r]; [reflexivity|].
  intros [->|[->| ->]]; reflexivity.
Qed.

Lemma scan_digits_uint_str (u : Decimal.uint) (rest : string) :
  delimited rest -> Json.scan_digits (Json.uint_str u ++ rest) = (u, rest).
Proof.
  intros Hd. induction u; cbn [Json.uint_str append];
    [ now apply delimited_no_digit | .. ];
    cbn [Json.scan_digits]; cbn [Json.digit_of Ascii.eqb Bool.eqb];
    rewrite IHu; reflexivity.
Qed.

(** The decimal digits of a positive number do not start with [0]. *)
Lemma pos_to_uint_normal (p : positive) :
  Decimal.unorm (Pos.to_uint p) = Pos.to_uint p.
Proof.
  rewrite <- (DecimalPos.Unsigned.to_of (Pos.to_uint p)).
  rewrite DecimalPos.Unsigned.of_to. reflexivity.
Qed.

Lemma pos_to_uint_head (p : positive) :
  match Pos.to_uint p with
  | Decimal.Nil | Decimal.D0 _ => False
  | _ => True
  end.
Proof.
  pose proof (pos_to_uint_normal p) as Hn.
  pose proof (DecimalPos.Unsigned.to_uint_nonzero p) as Hz.
  destruct (Pos.to_uint p) as [|u|u|u|u|u|u|u|u|u|u] eqn:E; try exact I.
  - now apply (DecimalPos.Unsigned.to_uint_nonnil p).
  - rewrite unorm_D0 in Hn.
    unfold Decimal.unorm in Hn.
    destruct (Decimal.nzhead u) eqn:En; try discriminate.
    + injection Hn as <-. now apply Hz.
    + exact (nzhead_nonzero _ _ En).
Qed.

Lemma scan_int_uint_str (p : positive) (rest : string) :
  delimited rest ->
  Json.scan_int (Json.uint_str (Pos.to_uint p) ++ rest) = Some (Pos.to_uint p, rest).
Proof.
  intros Hd. pose proof (pos_to_uint_head p) as Hh.
  pose proof (scan_digits_uint_str (Pos.to_uint p) rest Hd) as Hs.
  destruct (Pos.to_uint p) as [|u|u|u|u|u|u|u|u|u|u]; try contradiction;
    cbn [Json.uint_str append] in *; unfold Json.scan_int;
    cbn [Json.digit_of Ascii.eqb Bool.eqb]; now rewrite Hs.
Qed.

Lemma parse_number_dump_int (z : Z) (rest : string) :
  delimited rest ->
  Json.parse_number (Json.dump_int z ++ rest) = Some (PInt z, rest).
Proof.
  intros Hd. unfold Json.dump_int.
  pose proof (DecimalZ.of_to z) as Hz.
  destruct z as [|p|p]; cbn [Z.to_int] in *.
  - cbn. now rewrite (delimited_no_float rest Hd).
  - pose proof (scan_int_uint_str p rest Hd) as Hs.
    pose proof (pos_to_uint_head p) as Hh.
    unfold Json.parse_number.
    destruct (Pos.to_uint p) as [|u|u|u|u|u|u|u|u|u|u] eqn:E; try contradiction;
      cbn [Json.uint_str append] in *; cbn [Ascii.eqb Bool.eqb];
      rewrite Hs, (delimited_no_float rest Hd), Hz; reflexivity.
  - pose proof (scan_int_uint_str p rest Hd) as Hs.
    unfold Json.parse_number. cbn [Json.uint_str append Ascii.eqb Bool.eqb].
    rewrite Hs, (delimited_no_float rest Hd), Hz. reflexivity.
Qed.

(** An encoded integer starts with a digit or the sign. *)
Lemma dump_int_head (z : Z) :
  exists c r, Json.dump_int z = String c r
              /\ In c [ "0"; "1"; "2"; "3"; "4"; "5"; "6"; "7"; "8"; "9"; "-" ]%char.
Proof.
  unfold Json.dump_int. destruct z as [|p|p]; cbn [Z.to_int].
  - eexists _, _. split; [reflexivity|]. cbn. auto.
  - pose proof (pos_to_uint_head p) as Hh.
    destruct (Pos.to_uint p); try contradiction; cbn [Json.uint_str];
      eexists _, _; (split; [reflexivity|]); cbn; auto 12.
  - eexists _, _. split; [reflexivity|]. cbn. auto 12.
Qed.

(** *** Induction on values *)
Lemma pyval_induction (P : pyval -> Prop) :
  P PNone ->
  (forall b, P (PBool b)) ->
  (forall z, P (PInt z)) ->
  (forall s, P (PStr s)) ->
  (forall l, Forall P l -> P (PList l)) ->
  (forall d, Forall (fun kv => P (snd kv)) d -> P (PDict d)) ->
  forall v, P v.
Proof.
  intros HN HB HI HS HL HD.
  fix IH 1. intros [| b | z | s | l | d].
  - exact HN.
  - apply HB.
  - apply HI.
  - apply HS.
  - apply HL. induction l as [|x l IHl]; constructor; [apply IH | exact IHl].
  - apply HD. induction d as [|kv d IHd]; constructor; [apply IH | exact IHd].
Qed.

Lemma wf_list (l : list pyval) : wf (PList l) <-> Forall wf l.
Proof.
  induction l as [|x l IH].
  - split; [constructor | intros _; exact I].
  - split.
    + intros [Hx Hl]. constructor; [exact Hx | now apply IH].
    + intros H. inversion H; subst. split; [assumption | now apply IH].
Qed.

Lemma wf_dict (d : list (string * pyval)) :
  wf (PDict d) <-> NoDup (map fst d) /\ Forall (fun kv => wf (snd kv)) d.
Proof.
  cbn [wf]. apply and_iff_compat_l.
  induction d as [|kv d IH].
  - split; [constructor | intros _; exact I].
  - split.
    + intros [Hx Hl]. constructor; [exact Hx | now apply IH].
    + intros H. inversion H; subst. split; [assumption | now apply IH].
Qed.

Lemma dumps_list (l : list pyval) : Json.dumps (PList l) = "[" ++ items l.
Proof.
  reflexivity.
Qed.

Lemma dumps_dict (d : list (string * pyval)) : Json.dumps (PDict d) = "{" ++ members d.
Proof.
  reflexivity.
Qed.

Lemma dumps_opens_value (v : pyval) : opens_value (Json.dumps v).
Proof.
  destruct v as [| [|] | z | s | l | d].
  - repeat split.
  - repeat split.
  - repeat split.
  - destruct (dump_int_head z) as (c & r & E & Hin).
    cbn [Json.dumps]. rewrite E.
    cbn in Hin. cbn [opens_value].
    repeat (destruct Hin as [<-|Hin]; [repeat split|]). contradiction.
  - repeat split.
  - rewrite dumps_list. repeat split.
  - rewrite dumps_dict. repeat split.
Qed.

Lemma opens_value_skip_ws (s r : string) :
  opens_value s -> Json.skip_ws (s ++ r) = s ++ r.
Proof.
  destruct s as [|c s]; [contradiction|]. intros (Hw & _).
  cbn [append Json.skip_ws]. now rewrite Hw.
Qed.

Lemma opens_value_not_bracket (s r : string) :
  opens_value s -> Json.strip "]" (s ++ r) = None.
Proof.
  destruct s as [|c s]; [contradiction|]. intros (_ & Hb & _).
  cbn [append Json.strip]. rewrite Ascii.eqb_sym, Hb. reflexivity.
Qed.

Lemma items_opens_value (x : pyval) (l : list pyval) : opens_value (items (x :: l)).
Proof.
  pose proof (dumps_opens_value x) as H.
  cbn [items]. destruct l; destruct (Json.dumps x); try contradiction; exact H.
Qed.

Lemma dict_of_pairs_nodup (acc d : list (string * pyval)) :
  NoDup (map fst (acc ++ d)%list) ->
  fold_left (fun m kv => dict_set (fst kv) (snd kv) m) d acc = (acc ++ d)%list.
Proof.
  revert acc. induction d as [|[k v] d IH]; intros acc Hnd.
  - cbn. now rewrite List.app_nil_r.
  - cbn [fold_left fst snd].
    assert (Hset : dict_set k v acc = (acc ++ [(k, v)])%list).
    { assert (Hk : ~ In k (map fst acc)).
      { rewrite map_app in Hnd. cbn in Hnd.
        apply NoDup_remove_2 in Hnd. intros Hin. apply Hnd.
        apply in_or_app. now left. }
      clear -Hk. induction acc as [|[k' v'] acc IHa]; [reflexivity|].
      cbn [dict_set]. destruct (String.eqb_spec k' k) as [->|Hne].
      - exfalso. apply Hk. now left.
      - cbn. rewrite IHa; [reflexivity|]. intros Hin. apply Hk. now right. }
    rewrite Hset, IH.
    + now rewrite <- List.app_assoc.
    + now rewrite <- List.app_assoc.
Qed.

Lemma dict_of_pairs_id (d : list (string * pyval)) :
  NoDup (map fst d) -> dict_of_pairs d = d.
Proof. intros H. unfold dict_of_pairs. now rewrite dict_of_pairs_nodup. Qed.

(** *** One step of each decoding function *)
Lemma parse_elems_S (n : nat) (s : string) (acc : list pyval) :
  Json.parse_elems (S n) s acc =
  match Json.parse_value n s with
  | None => None
  | Some (v, r) =>
      match Json.skip_ws r with
      | EmptyString => None
      | String c r' =>
          if (c =? "]")%char then Some (PList (rev (v :: acc)), r')
          else if (c =? ",")%char then Json.parse_elems n (Json.skip_ws r') (v :: acc)
          else None
      end
  end.
Proof. reflexivity. Qed.

Lemma parse_members_S (n : nat) (k : string) (r0 : string)
    (acc : list (string * pyval)) :
  Json.parse_members (S n) (String Json.dquote r0) acc =
  match Json.scan_string r0 with
  | None => None
  | Some (k, r1) =>
      match Json.strip ":" (Json.skip_ws r1) with
      | None => None
      | Some r2 =>
          match Json.parse_value n (Json.skip_ws r2) with
          | None => None
          | Some (v, r3) =>
              match Json.skip_ws r3 with
              | EmptyString => None
              | String c r4 =>
                  if (c =? "}")%char then
                    Some (PDict (dict_of_pairs (rev ((k, v) :: acc))), r4)
                  else if (c =? ",")%char then
                    Json.parse_members n (Json.skip_ws r4) ((k, v) :: acc)
                  else None
              end
          end
      end
  end.
Proof. reflexivity. Qed.

Lemma parse_value_string (n : nat) (r : string) :
  Json.parse_value (S n) (String Json.dquote r) =
  match Json.scan_string r with
  | Some (t, rest) => Some (PStr t, rest)
  | None => None
  end.
Proof. reflexivity. Qed.

Lemma parse_value_list (n : nat) (r : string) :
  Json.parse_value (S n) (String "[" r) =
  match Json.strip "]" (Json.skip_ws r) with
  | Some rest => Some (PList [], rest)
  | None => Json.parse_elems n (Json.skip_ws r) []
  end.
Proof. reflexivity. Qed.

Lemma parse_value_dict (n : nat) (r : string) :
  Json.parse_value (S n) (String "{" r) =
  match Json.strip "}" (Json.skip_ws r) with
  | Some rest => Some (PDict [], rest)
  | None => Json.parse_members n (Json.skip_ws r) []
  end.
Proof. reflexivity. Qed.

Lemma parse_value_number (n : nat) (c : ascii) (r : string) :
  In c [ "0"; "1"; "2"; "3"; "4"; "5"; "6"; "7"; "8"; "9"; "-" ]%char ->
  Json.parse_value (S n) (String c r) = Json.parse_number (String c r).
Proof.
  intros Hin. cbn in Hin.
  repeat (destruct Hin as [<-|Hin]; [reflexivity|]). contradiction.
Qed.

Lemma strip_colon (s : string) :
  Json.strip ":" (Json.skip_ws (String ":" (String " " s))) = Some (String " " s).
Proof. reflexivity. Qed.

(** The two ways an element and a member can end. *)
Lemma parse_elems_last (n : nat) (s r : string) (v : pyval) (acc : list pyval) :
  Json.parse_value n s = Some (v, "]" ++ r) ->
  Json.parse_elems (S n) s acc = Some (PList (rev (v :: acc)), r).
Proof. intros H. rewrite parse_elems_S, H. reflexivity. Qed.

Lemma parse_elems_next (n : nat) (s r : string) (v : pyval) (acc : list pyval) :
  Json.parse_value n s = Some (v, ", " ++ r) ->
  Json.parse_elems (S n) s acc = Json.parse_elems n (Json.skip_ws r) (v :: acc).
Proof. intros H. rewrite parse_elems_S, H. reflexivity. Qed.

Lemma parse_members_last (n : nat) (k s r : string) (v : pyval)
    (acc : list (string * pyval)) :
  Json.parse_value n (Json.skip_ws (String " " s)) = Some (v, "}" ++ r) ->
  Json.parse_members (S n) (Json.dump_str k ++ ": " ++ s) acc
  = Some (PDict (dict_of_pairs (rev ((k, v) :: acc))), r).
Proof.
  intros H. unfold Json.dump_str. cbn [append].
  rewrite (parse_members_S n k), append_assoc, scan_dump_str.
  rewrite strip_colon, H. reflexivity.
Qed.

Lemma parse_members_next (n : nat) (k s r : string) (v : pyval)
    (acc : list (string * pyval)) :
  Json.parse_value n (Json.skip_ws (String " " s)) = Some (v, ", " ++ r) ->
  Json.parse_members (S n) (Json.dump_str k ++ ": " ++ s) acc
  = Json.parse_members n (Json.skip_ws r) ((k, v) :: acc).
Proof.
  intros H. unfold Json.dump_str. cbn [append].
  rewrite (parse_members_S n k), append_assoc, scan_dump_str.
  rewrite strip_colon, H. reflexivity.
Qed.

Lemma parse_elems_items (l : list pyval) :
  l <> [] -> Forall decodes l ->
  forall (acc : list pyval) (n : nat) (rest : string),
    items_cost l <= n ->
    Json.parse_elems n (items l ++ rest) acc = Some (PList (rev acc ++ l)%list, rest).
Proof.
  induction l as [|x l IH]; [congruence|].
  intros _ Hall acc n rest Hn.
  inversion Hall as [|? ? Hx Hl]; subst.
  unfold items_cost in Hn. cbn [fold_right] in Hn. fold (items_cost l) in Hn.
  destruct n as [|n]; [lia|].
  destruct l as [|y l].
  - cbn [items]. rewrite append_assoc.
    rewrite (parse_elems_last n _ rest x); [reflexivity|].
    apply Hx; [lia|cbn; auto].
  - change (items (x :: y :: l)) with (Json.dumps x ++ ", " ++ items (y :: l)).
    rewrite !append_assoc.
    rewrite (parse_elems_next n _ (items (y :: l) ++ rest) x).
    + rewrite (opens_value_skip_ws _ _ (items_opens_value y l)).
      rewrite (IH ltac:(discriminate) Hl (x :: acc) n rest ltac:(lia)).
      cbn [rev]. now rewrite <- List.app_assoc.
    + apply Hx; [lia|cbn; auto].
Qed.

Lemma members_head (kv : string * pyval) (d : list (string * pyval)) :
  exists r, members (kv :: d) = String Json.dquote r.
Proof. destruct d; cbn [members Json.dump_str append]; eexists; reflexivity. Qed.

Lemma members_skip_ws (kv : string * pyval) (d : list (string * pyval)) (rest : string) :
  Json.skip_ws (members (kv :: d) ++ rest) = members (kv :: d) ++ rest.
Proof. destruct (members_head kv d) as (r & ->). reflexivity. Qed.

Lemma parse_members_members (d : list (string * pyval)) :
  d <> [] -> Forall (fun kv => decodes (snd kv)) d ->
  forall (acc : list (string * pyval)) (n : nat) (rest : string),
    members_cost d <= n ->
    Json.parse_members n (members d ++ rest) acc
    = Some (PDict (dict_of_pairs (rev acc ++ d)%list), rest).
Proof.
  induction d as [|[k v] d IH]; [congruence|].
  intros _ Hall acc n rest Hn.
  inversion Hall as [|? ? Hx Hl]; subst. cbn [snd] in Hx.
  unfold members_cost in Hn. cbn [fold_right snd] in Hn. fold (members_cost d) in Hn.
  destruct n as [|n]; [lia|].
  destruct d as [|kv d].
  - cbn [members fst snd].
    rewrite !append_assoc.
    rewrite (parse_members_last n k _ rest v); [reflexivity|].
    change (Json.skip_ws (String " " (Json.dumps v ++ "}" ++ rest)))
      with (Json.skip_ws (Json.dumps v ++ "}" ++ rest)).
    rewrite (opens_value_skip_ws _ _ (dumps_opens_value v)).
    apply Hx; [lia|cbn; auto].
  - change (members ((k, v) :: kv :: d))
      with (Json.dump_str k ++ ": " ++ Json.dumps v ++ ", " ++ members (kv :: d)).
    rewrite !append_assoc.
    rewrite (parse_members_next n k _ (members (kv :: d) ++ rest) v).
    + rewrite members_skip_ws.
      rewrite (IH ltac:(discriminate) Hl ((k, v) :: acc) n rest ltac:(lia)).
      cbn [rev]. now rewrite <- List.app_assoc.
    + change (Json.skip_ws (String " " ?x)) with (Json.skip_ws x).
      rewrite (opens_value_skip_ws _ _ (dumps_opens_value v)).
      apply Hx; [lia|cbn; auto].
Qed.

Lemma parse_value_dumps (v : pyval) : wf v -> decodes v.
Proof.
  induction v as [| b | z | s | l IHl | d IHd] using pyval_induction;
    intros Hwf n rest Hn Hd.
  - destruct n; [cbn in Hn; lia|]. reflexivity.
  - destruct n; [cbn in Hn; lia|]. destruct b; reflexivity.
  - destruct n; [cbn in Hn; lia|].
    cbn [Json.dumps].
    destruct (dump_int_head z) as (c & r & E & Hin).
    rewrite <- (parse_number_dump_int z rest Hd).
    rewrite E. cbn [append]. now apply parse_value_number.
  - destruct n; [cbn in Hn; lia|].
    cbn [Json.dumps Json.dump_str append].
    rewrite parse_value_string, append_assoc, scan_dump_str. reflexivity.
  - destruct n; [cbn in Hn; lia|].
    rewrite dumps_list. cbn [append]. rewrite parse_value_list.
    destruct l as [|x l]; [reflexivity|].
    rewrite (opens_value_skip_ws _ _ (items_opens_value x l)).
    rewrite (opens_value_not_bracket _ _ (items_opens_value x l)).
    apply wf_list in Hwf.
    assert (Hall : Forall decodes (x :: l)).
    { clear -IHl Hwf. induction IHl as [|y l' Hy _ IH]; [constructor|].
      inversion Hwf; subst. constructor; auto. }
    rewrite (parse_elems_items (x :: l) ltac:(discriminate) Hall [] n rest).
    + reflexivity.
    + cbn [cost] in Hn. fold (items_cost (x :: l)) in Hn. lia.
  - destruct n; [cbn in Hn; lia|].
    rewrite dumps_dict. cbn [append]. rewrite parse_value_dict.
    destruct d as [|kv d]; [reflexivity|].
    destruct (members_head kv d) as (r & Hr). rewrite Hr.
    change (Json.skip_ws (String Json.dquote r ++ rest))
      with (String Json.dquote r ++ rest).
    change (Json.strip "}" (String Json.dquote r ++ rest)) with (@None string).
    cbv iota. rewrite <- Hr.
    apply wf_dict in Hwf. destruct Hwf as [Hnd Hwf].
    assert (Hall : Forall (fun kv => decodes (snd kv)) (kv :: d)).
    { clear -IHd Hwf. induction IHd as [|y l' Hy _ IH]; [constructor|].
      inversion Hwf; subst. constructor; auto. }
    rewrite (parse_members_members (kv :: d) ltac:(discriminate) Hall [] n rest).
    + cbn [rev app]. now rewrite dict_of_pairs_id.
    + cbn [cost] in Hn. fold (members_cost (kv :: d)) in Hn. lia.
Qed.

(** *** Enough fuel *)
Lemma items_cost_le (l : list pyval) :
  Forall (fun x => cost x <= String.length (Json.dumps x)) l ->
  items_cost l <= String.length (items l).
Proof.
  induction 1 as [|x l Hx Hl IH]; [cbn; lia|].
  unfold items_cost in *. cbn [fold_right].
  destruct l as [|y l].
  - cbn [items fold_right]. rewrite length_append. cbn. lia.
  - change (items (x :: y :: l)) with (Json.dumps x ++ ", " ++ items (y :: l)).
    rewrite !length_append. cbn [String.length]. lia.
Qed.

Lemma members_cost_le (d : list (string * pyval)) :
  Forall (fun kv => cost (snd kv) <= String.length (Json.dumps (snd kv))) d ->
  members_cost d <= String.length (members d).
Proof.
  induction 1 as [|x l Hx Hl IH]; [cbn; lia|].
  unfold members_cost in *. cbn [fold_right].
  destruct l as [|y l].
  - cbn [members fold_right]. rewrite !length_append. cbn. lia.
  - change (members (x :: y :: l))
      with (Json.dump_str (fst x) ++ ": " ++ Json.dumps (snd x) ++ ", " ++ members (y :: l)).
    rewrite !length_append. cbn [String.length]. lia.
Qed.

Lemma cost_le_length (v : pyval) : cost v <= String.length (Json.dumps v).
Proof.
  induction v as [| b | z | s | l IHl | d IHd] using pyval_induction.
  - cbn. lia.
  - destruct b; cbn; lia.
  - cbn [Json.dumps cost]. destruct (dump_int_head z) as (c & r & -> & _). cbn. lia.
  - cbn. lia.
  - rewrite dumps_list. cbn [cost append String.length].
    apply le_n_S. fold (items_cost l). now apply items_cost_le.
  - rewrite dumps_dict. cbn [cost append String.length].
    apply le_n_S. fold (members_cost d). now apply members_cost_le.
Qed.

(** Decoding inverts encoding. *)
Lemma loads_dumps (v : pyval) : wf v -> Json.loads (Json.dumps v) = Some v.
Proof.
  intros Hwf. unfold Json.loads.
  assert (Hs : Json.skip_ws (Json.dumps v) = Json.dumps v).
  { rewrite <- (append_nil_r (Json.dumps v)) at 1.
    rewrite (opens_value_skip_ws _ _ (dumps_opens_value v)). apply append_nil_r. }
  rewrite Hs.
  pose proof (parse_value_dumps v Hwf (S (String.length (Json.dumps v))) EmptyString) as H.
  rewrite append_nil_r in H. rewrite H; [reflexivity| |exact I].
  pose proof (cost_le_length v). lia.
Qed.

(** *** Decoded values are well formed *)
Lemma dict_set_keys (k : string) (v : pyval) (d : list (string * pyval)) (k' : string) :
  In k' (map fst (dict_set k v d)) <-> k' = k \/ In k' (map fst d).
Proof.
  induction d as [|[k0 v0] d IH]; cbn [dict_set map fst In].
  - intuition.
  - destruct (String.eqb_spec k0 k) as [->|Hne]; cbn [map fst In]; [intuition|].
    rewrite IH. intuition.
Qed.

Lemma dict_set_nodup (k : string) (v : pyval) (d : list (string * pyval)) :
  NoDup (map fst d) -> NoDup (map fst (dict_set k v d)).
Proof.
  induction d as [|[k0 v0] d IH]; cbn [dict_set map fst]; intros Hnd.
  - constructor; [intros []|constructor].
  - inversion Hnd as [|? ? Hnin Hnd']; subst.
    destruct (String.eqb_spec k0 k) as [->|Hne]; cbn [map fst].
    + constructor; assumption.
    + constructor; [|now apply IH].
      rewrite dict_set_keys. intros [->|Hin]; [now apply Hne|now apply Hnin].
Qed.

Lemma dict_set_forall (P : string * pyval -> Prop) (k : string) (v : pyval)
    (d : list (string * pyval)) :
  (forall k', P (k', v)) -> Forall P d -> Forall P (dict_set k v d).
Proof.
  intros Hv Hall. induction d as [|[k0 v0] d IH]; cbn [dict_set].
  - constructor; [apply Hv|constructor].
  - inversion Hall; subst. destruct (String.eqb k0 k); constructor; auto.
Qed.

Lemma dict_set_wf (k : string) (v : pyval) (d : list (string * pyval)) :
  wf (PDict d) -> wf v -> wf (PDict (dict_set k v d)).
Proof.
  rewrite !wf_dict. intros [Hnd Hall] Hv. split.
  - now apply dict_set_nodup.
  - apply dict_set_forall; [intros k0; exact Hv|exact Hall].
Qed.

Lemma dict_of_pairs_wf (pairs : list (string * pyval)) :
  Forall (fun kv => wf (snd kv)) pairs -> wf (PDict (dict_of_pairs pairs)).
Proof.
  unfold dict_of_pairs.
  assert (H : forall acc, wf (PDict acc) ->
                Forall (fun kv => wf (snd kv)) pairs ->
                wf (PDict (fold_left (fun d kv => dict_set (fst kv) (snd kv) d) pairs acc))).
  { induction pairs as [|[k v] pairs IH]; intros acc Hacc Hall; [exact Hacc|].
    inversion Hall; subst. cbn [fold_left fst snd].
    apply IH; [|assumption]. now apply dict_set_wf. }
  apply H. apply wf_dict. split; constructor.
Qed.

Lemma parse_number_wf (s r : string) (v : pyval) :
  Json.parse_number s = Some (v, r) -> wf v.
Proof.
  unfold Json.parse_number. destruct s as [|c s]; [discriminate|].
  destruct (c =? "-")%char.
  - destruct (Json.scan_int s) as [[u rest]|]; [|discriminate].
    destruct (Json.float_marker rest); [discriminate|].
    intros [= <- _]. exact I.
  - destruct (Json.scan_int (String c s)) as [[u rest]|]; [|discriminate].
    destruct (Json.float_marker rest); [discriminate|].
    intros [= <- _]. exact I.
Qed.

Lemma parse_value_S (n : nat) (c : ascii) (r : string) :
  Json.parse_value (S n) (String c r) =
  if (c =? Json.dquote)%char then
    match Json.scan_string r with
    | Some (t, rest) => Some (PStr t, rest)
    | None => None
    end
  else if (c =? "[")%char then
    match Json.strip "]" (Json.skip_ws r) with
    | Some rest => Some (PList [], rest)
    | None => Json.parse_elems n (Json.skip_ws r) []
    end
  else if (c =? "{")%char then
    match Json.strip "}" (Json.skip_ws r) with
    | Some rest => Some (PDict [], rest)
    | None => Json.parse_members n (Json.skip_ws r) []
    end
  else
    match Json.strip "null" (String c r), Json.strip "true" (String c r),
          Json.strip "false" (String c r) with
    | Some rest, _, _ => Some (PNone, rest)
    | _, Some rest, _ => Some (PBool true, rest)
    | _, _, Some rest => Some (PBool false, rest)
    | None, None, None => Json.parse_number (String c r)
    end.
Proof. reflexivity. Qed.

Lemma parse_members_S' (n : nat) (s : string) (acc : list (string * pyval)) :
  Json.parse_members (S n) s acc =
  match s with
  | EmptyString => None
  | String q r0 =>
      if (q =? Json.dquote)%char then
        match Json.scan_string r0 with
        | None => None
        | Some (k, r1) =>
            match Json.strip ":" (Json.skip_ws r1) with
            | None => None
            | Some r2 =>
                match Json.parse_value n (Json.skip_ws r2) with
                | None => None
                | Some (v, r3) =>
                    match Json.skip_ws r3 with
                    | EmptyString => None
                    | String c r4 =>
                        if (c =? "}")%char then
                          Some (PDict (dict_of_pairs (rev ((k, v) :: acc))), r4)
                        else if (c =? ",")%char then
                          Json.parse_members n (Json.skip_ws r4) ((k, v) :: acc)
                        else None
                    end
                end
            end
        end
      else None
  end.
Proof. reflexivity. Qed.

Lemma parse_wf (n : nat) :
  (forall s v r, Json.parse_value n s = Some (v, r) -> wf v)
  /\ (forall s acc v r, Forall wf acc ->
        Json.parse_elems n s acc = Some (v, r) -> wf v)
  /\ (forall s acc v r, Forall (fun kv => wf (snd kv)) acc ->
        Json.parse_members n s acc = Some (v, r) -> wf v).
Proof.
  induction n as [|n (IHv & IHe & IHm)].
  - repeat split; intros; discriminate.
  - split; [|split].
    + intros s v r. destruct s as [|c s]; [discriminate|].
      rewrite parse_value_S.
      destruct (c =? Json.dquote)%char.
      { destruct (Json.scan_string s) as [[t rest]|]; [|discriminate].
        intros [= <- _]. exact I. }
      destruct (c =? "[")%char.
      { destruct (Json.strip "]" (Json.skip_ws s)).
        - intros [= <- _]. exact I.
        - apply IHe. constructor. }
      destruct (c =? "{")%char.
      { destruct (Json.strip "}" (Json.skip_ws s)).
        - intros [= <- _]. split; [constructor|exact I].
        - apply IHm. constructor. }
      destruct (Json.strip "null" (String c s)); [intros [= <- _]; exact I|].
      destruct (Json.strip "true" (String c s)); [intros [= <- _]; exact I|].
      destruct (Json.strip "false" (String c s)); [intros [= <- _]; exact I|].
      apply parse_number_wf.
    + intros s acc v r Hacc. rewrite parse_elems_S.
      destruct (Json.parse_value n s) as [[x r1]|] eqn:Ex; [|discriminate].
      apply IHv in Ex.
      destruct (Json.skip_ws r1) as [|c r2]; [discriminate|].
      destruct (c =? "]")%char.
      { intros [= <- _]. apply wf_list.
        apply (@Forall_rev _ wf (x :: acc)). now constructor. }
      destruct (c =? ",")%char; [|discriminate].
      apply IHe. now constructor.
    + intros s acc v r Hacc. rewrite parse_members_S'.
      destruct s as [|q r0]; [discriminate|].
      destruct (q =? Json.dquote)%char; [|discriminate].
      destruct (Json.scan_string r0) as [[k r1]|]; [|discriminate].
      destruct (Json.strip ":" (Json.skip_ws r1)) as [r2|]; [|discriminate].
      destruct (Json.parse_value n (Json.skip_ws r2)) as [[x r3]|] eqn:Ex; [|discriminate].
      apply IHv in Ex.
      destruct (Json.skip_ws r3) as [|c r4]; [discriminate|].
      destruct (c =? "}")%char.
      { intros [= <- _]. apply dict_of_pairs_wf.
        apply (@Forall_rev _ (fun kv => wf (snd kv)) ((k, x) :: acc)). now constructor. }
      destruct (c =? ",")%char; [|discriminate].
      apply IHm. now constructor.
Qed.

Lemma loads_wf (s : string) (v : pyval) : Json.loads s = Some v -> wf v.
Proof.
  unfold Json.loads.
  destruct (Json.parse_value _ _) as [[x r]|] eqn:E; [|discriminate].
  destruct (Json.skip_ws r); [|discriminate].
  intros [= <-]. exact (proj1 (parse_wf _) _ _ _ E).
Qed.

(** ** Loading the preferences *)

Import ConfigManager.

Lemma load_config_absent (d : Disk) :
  file d = None -> _load_config d = Return default_config.
Proof. intros H. unfold _load_config. now rewrite H. Qed.


Lemma load_config_decoded (d : Disk) (text : string) (v : pyval) :
  file d = Some text -> read_error d = None -> Json.loads text = Some v ->
  _load_config d = Return v.
Proof.
  intros Hf Hr Hl. unfold _load_config, read_json, Json.json_loads.
  rewrite Hf, Hr, Hl. reflexivity.
Qed.

Lemma load_config_vanished (d : Disk) (e : pyexn) :
  read_error d = Some e -> exn_cls e = FileNotFoundError ->
  _load_config d = Return default_config.
Proof.
  intros Hr Hc. unfold _load_config, read_json, caught_on_load.
  rewrite Hr, Hc. destruct (file d); reflexivity.
Qed.

Lemma default_config_wf : wf default_config.
Proof.
  apply wf_dict. split.
  - repeat constructor; cbn; intuition discriminate.
  - repeat constructor.
Qed.

Lemma load_config_wf (d : Disk) (cfg : pyval) :
  _load_config d = Return cfg -> wf cfg.
Proof.
  unfold _load_config, read_json, Json.json_loads.
  destruct (file d) as [text|]; [|intros [= <-]; apply default_config_wf].
  destruct (read_error d) as [e|].
  - destruct (caught_on_load e); [intros [= <-]; apply default_config_wf|discriminate].
  - destruct (Json.loads text) as [v|] eqn:E.
    + intros [= <-]. now apply loads_wf in E.
    + cbn. intros [= <-]. apply default_config_wf.
Qed.


(** A file that holds a JSON text that is not an object is loaded as it is,
    and the getters then fail. *)
Example load_of_a_list :
  let d := mk_disk true (Some (Json.dumps (PList []))) None None None in
  _load_config d = Return (PList [])
  /\ get_whisper_model (ConfigManager.mk (PList []))
     = Raise (mk_exn AttributeError "'list' object has no attribute 'get'").
Proof. split; reflexivity. Qed.



(** ** Saving the preferences *)

Lemma save_config_keeps_self (self : ConfigManager.t) (disk : Disk) :
  fst (snd (save_config (self, disk))) = self.
Proof.
  unfold save_config. destruct (write_error disk); [reflexivity|].
  destruct (dir_exists disk); reflexivity.
Qed.

Lemma save_config_writes (self : ConfigManager.t) (disk : Disk) :
  write_error disk = None -> dir_exists disk = true ->
  save_config (self, disk) = (Return tt, (self, with_file disk (Json.dumps (config self)))).
Proof. intros Hw Hd. unfold save_config. now rewrite Hw, Hd. Qed.

Lemma save_config_returns (self : ConfigManager.t) (disk : Disk) :
  fst (save_config (self, disk)) = Return tt ->
  write_error disk = None /\ dir_exists disk = true.
Proof.
  unfold save_config. destruct (write_error disk); [discriminate|].
  destruct (dir_exists disk); [auto|discriminate].
Qed.

Lemma load_after_write (disk : Disk) (cfg : pyval) :
  read_error disk = None -> wf cfg ->
  _load_config (with_file disk (Json.dumps cfg)) = Return cfg.
Proof.
  intros Hr Hwf.
  apply (load_config_decoded _ (Json.dumps cfg)); [reflexivity|exact Hr|].
  now apply loads_dumps.
Qed.

(** C8: on a storage that can be written and read, saving the preferences
    succeeds and loading immediately afterwards yields the record that was
    saved, so that a manager built then holds the same record; and saving
    what was loaded is idempotent: loading again yields what was loaded, and
    saving it once more leaves the storage as it is. *)
Theorem C8_save_load_roundtrip (self : ConfigManager.t) (disk : Disk) :
  write_error disk = None -> dir_exists disk = true -> read_error disk = None ->
  wf (config self) ->
  let disk' := snd (snd (save_config (self, disk))) in
  fst (save_config (self, disk)) = Return tt
  /\ _load_config disk' = Return (config self)
  /\ fst (ConfigManager.__init__ disk') = Return self
  /\ (forall cfg, _load_config disk = Return cfg ->
        let disk1 := snd (snd (save_config (ConfigManager.mk cfg, disk))) in
        _load_config disk1 = Return cfg
        /\ save_config (ConfigManager.mk cfg, disk1)
           = (Return tt, (ConfigManager.mk cfg, disk1))).
Proof.
  intros Hw Hd Hr Hwf disk'. subst disk'.
  rewrite (save_config_writes self disk Hw Hd). cbn [fst snd].
  split; [reflexivity|].
  split; [now apply load_after_write|].
  split.
  - unfold ConfigManager.__init__, _ensure_config_dir.
    cbn [dir_exists with_file]. rewrite Hd.
    rewrite (load_after_write disk (config self) Hr Hwf).
    destruct self; reflexivity.
  - intros cfg Hload. cbv zeta.
    rewrite (save_config_writes (ConfigManager.mk cfg) disk Hw Hd). cbn [fst snd config].
    split.
    + apply load_after_write; [exact Hr|]. now apply (load_config_wf disk).
    + rewrite save_config_writes; [reflexivity|exact Hw|exact Hd].
Qed.

Lemma C8_save_load_roundtrip_witness :
  _load_config
    (snd (snd (save_config (ConfigManager.mk (config_with_key "sk-test"), fresh_disk))))
  = Return (config_with_key "sk-test").
Proof.
  refine (proj1 (proj2 (C8_save_load_roundtrip
            (ConfigManager.mk (config_with_key "sk-test")) fresh_disk
            eq_refl eq_refl eq_refl _))).
  apply wf_dict. split.
  - repeat constructor; cbn; intuition discriminate.
  - repeat constructor.
Defined.

(** ** The setters *)

Lemma dict_get_set_other (key key' : string) (value : pyval)
    (d : list (string * pyval)) :
  key <> key' -> dict_get key' (dict_set key value d) = dict_get key' d.
Proof.
  intros Hne. induction d as [|[k v] d IH]; cbn [dict_set dict_get].
  - destruct (String.eqb_spec key key'); [contradiction|reflexivity].
  - destruct (String.eqb_spec k key) as [->|Hk]; cbn [dict_get].
    + destruct (String.eqb_spec key key'); [contradiction|reflexivity].
    + now rewrite IH.
Qed.

Lemma dict_get_set_same (key : string) (value : pyval) (d : list (string * pyval)) :
  dict_get key (dict_set key value d) = Some value.
Proof.
  induction d as [|[k v] d IH]; cbn [dict_set dict_get].
  - now rewrite String.eqb_refl.
  - destruct (String.eqb_spec k key) as [->|Hk]; cbn [dict_get].
    + now rewrite String.eqb_refl.
    + destruct (String.eqb_spec k key); [contradiction|exact IH].
Qed.

(** Setting [key] leaves what [get] reads at another key as it was, whether
    or not the assignment and the write succeed. *)
Lemma set_and_save_frame (key key' : string) (value default : pyval)
    (self : ConfigManager.t) (disk : Disk) :
  key <> key' ->
  py_get (config (fst (snd (set_and_save key value (self, disk))))) key' default
  = py_get (config self) key' default.
Proof.
  intros Hne. unfold set_and_save.
  destruct (py_setitem (config self) key value) as [c|e] eqn:E; [|reflexivity].
  rewrite save_config_keeps_self. cbn [config].
  destruct (config self); try discriminate.
  injection E as <-. cbn [py_get]. now rewrite dict_get_set_other.
Qed.

(** After a setter that returned, the file holds the record of the
    manager, with the field set. *)
Lemma set_and_save_persists (key : string) (value : pyval)
    (self : ConfigManager.t) (disk : Disk) :
  fst (set_and_save key value (self, disk)) = Return tt ->
  read_error disk = None -> wf (config self) -> wf value ->
  let self' := fst (snd (set_and_save key value (self, disk))) in
  let disk' := snd (snd (set_and_save key value (self, disk))) in
  _load_config disk' = Return (config self')
  /\ py_get (config self') key PNone = Return value.
Proof.
  unfold set_and_save.
  destruct (py_setitem (config self) key value) as [c|e] eqn:E; [|discriminate].
  intros Hret Hr Hwf Hv.
  destruct (save_config_returns _ _ Hret) as [Hw Hd].
  rewrite (save_config_writes _ disk Hw Hd). cbn [fst snd config].
  destruct (config self) as [| | | | |d]; try discriminate.
  injection E as <-. split.
  - apply load_after_write; [exact Hr|]. now apply dict_set_wf.
  - cbn [py_get]. now rewrite dict_get_set_same.
Qed.

(** C10: each setter changes its own field only.  Whatever the prior
    record and the storage, after [set_openai_api_key] the two model getters
    return what they returned before, after [set_whisper_model] the
    credential and the text model are unchanged, after [set_text_model] the
    credential and the transcription model are unchanged; and when a setter
    has returned, the record in the file is the record of the manager, so the
    same holds of the persisted record. *)
Theorem C10_setters_frame (value : pyval) (self : ConfigManager.t) (disk : Disk) :
  (let self' := fst (snd (set_openai_api_key value (self, disk))) in
   get_whisper_model self' = get_whisper_model self
   /\ get_text_model self' = get_text_model self)
  /\ (let self' := fst (snd (set_whisper_model value (self, disk))) in
      get_openai_api_key self' = get_openai_api_key self
      /\ get_text_model self' = get_text_model self)
  /\ (let self' := fst (snd (set_text_model value (self, disk))) in
      get_openai_api_key self' = get_openai_api_key self
      /\ get_whisper_model self' = get_whisper_model self)
  /\ (forall setter,
        In setter [set_openai_api_key; set_whisper_model; set_text_model] ->
        fst (setter value (self, disk)) = Return tt ->
        read_error disk = None -> wf (config self) -> wf value ->
        _load_config (snd (snd (setter value (self, disk))))
        = Return (config (fst (snd (setter value (self, disk)))))).
Proof.
  unfold set_openai_api_key, set_whisper_model, set_text_model,
    get_openai_api_key, get_whisper_model, get_text_model.
  repeat split; try (apply set_and_save_frame; discriminate).
  intros setter Hin Hret Hr Hwf Hv.
  cbn [In] in Hin.
  destruct Hin as [<-|[<-|[<-|[]]]];
    exact (proj1 (set_and_save_persists _ value self disk Hret Hr Hwf Hv)).
Qed.

Lemma C10_setters_frame_witness :
  _load_config
    (snd (snd (set_whisper_model (PStr "gpt-4o-transcribe")
                 (ConfigManager.mk (config_with_key "sk-test"), fresh_disk))))
  = Return (PDict [ ("openai_api_key", PStr "sk-test");
                    ("whisper_model", PStr "gpt-4o-transcribe");
                    ("text_model", PStr "gpt-4o-mini") ]).
Proof.
  refine (proj2 (proj2 (proj2 (C10_setters_frame (PStr "gpt-4o-transcribe")
            (ConfigManager.mk (config_with_key "sk-test")) fresh_disk)))
            set_whisper_model (or_intror (or_introl eq_refl)) eq_refl eq_refl _ I).
  apply wf_dict. split.
  - repeat constructor; cbn; intuition discriminate.
  - repeat constructor.
Defined.

(* ================================================================== *)
(** * Further properties of the three modules *)

(** ** config_manager.py *)

Lemma set_and_save_get (key : string) (value default : pyval)
    (self : ConfigManager.t) (disk : Disk) (fields : list (string * pyval)) :
  config self = PDict fields ->
  py_get (config (fst (snd (set_and_save key value (self, disk))))) key default
  = Return value.
Proof.
  intros Hc. unfold set_and_save. rewrite Hc. cbn [py_setitem].
  rewrite save_config_keeps_self. cbn [config py_get].
  now rewrite dict_get_set_same.
Qed.

(** X1: on a record that is an object, a getter called after its setter
    returns the value that was set, whether the write to the storage
    succeeded or raised. *)
Theorem X1_setter_then_getter (value : pyval) (self : ConfigManager.t) (disk : Disk)
    (fields : list (string * pyval)) :
  config self = PDict fields ->
  get_openai_api_key (fst (snd (set_openai_api_key value (self, disk)))) = Return value
  /\ get_whisper_model (fst (snd (set_whisper_model value (self, disk)))) = Return value
  /\ get_text_model (fst (snd (set_text_model value (self, disk)))) = Return value.
Proof.
  intros Hc. repeat split; now apply (set_and_save_get _ _ _ _ _ fields).
Qed.

Lemma X1_setter_then_getter_witness :
  get_whisper_model
    (fst (snd (set_whisper_model (PStr "gpt-4o-transcribe")
                 (ConfigManager.mk default_config, locked_disk))))
  = Return (PStr "gpt-4o-transcribe").
Proof.
  exact (proj1 (proj2 (X1_setter_then_getter (PStr "gpt-4o-transcribe")
                         (ConfigManager.mk default_config) locked_disk _ eq_refl))).
Defined.

(** X2: when a setter raises on a record that is an object (the file
    cannot be opened for writing, or its directory is missing), the storage
    is left as it was while the record in memory already holds the new value:
    memory and file disagree until a later save succeeds. *)
Theorem X2_failed_save_diverges (value : pyval) (self : ConfigManager.t)
    (disk : Disk) (fields : list (string * pyval)) (e : pyexn) :
  config self = PDict fields ->
  forall setter key,
    In (setter, key) [ (set_openai_api_key, "openai_api_key");
                       (set_whisper_model, "whisper_model");
                       (set_text_model, "text_model") ] ->
    fst (setter value (self, disk)) = Raise e ->
    snd (setter value (self, disk))
    = (ConfigManager.mk (PDict (dict_set key value fields)), disk)
    /\ (write_error disk = Some e
        \/ (write_error disk = None /\ dir_exists disk = false
            /\ exn_cls e = FileNotFoundError)).
Proof.
  intros Hc setter key Hin.
  assert (H : fst (set_and_save key value (self, disk)) = Raise e ->
              snd (set_and_save key value (self, disk))
              = (ConfigManager.mk (PDict (dict_set key value fields)), disk)
              /\ (write_error disk = Some e
                  \/ (write_error disk = None /\ dir_exists disk = false
                      /\ exn_cls e = FileNotFoundError))).
  { unfold set_and_save, save_config. rewrite Hc. cbn [py_setitem].
    destruct (write_error disk) as [e'|].
    - cbn. intros [= ->]. split; [reflexivity|now left].
    - destruct (dir_exists disk); cbn; [discriminate|].
      intros [= <-]. split; [reflexivity|]. right. repeat split. }
  cbn [In] in Hin.
  destruct Hin as [[= <- <-]|[[= <- <-]|[[= <- <-]|[]]]]; exact H.
Qed.

Lemma X2_failed_save_diverges_witness :
  snd (set_openai_api_key (PStr "sk-new")
         (ConfigManager.mk (config_with_key "sk-old"),
          mk_disk true None None None
            (Some (mk_exn PermissionError "[Errno 13] Permission denied"))))
  = (ConfigManager.mk (config_with_key "sk-new"),
     mk_disk true None None None
       (Some (mk_exn PermissionError "[Errno 13] Permission denied"))).
Proof.
  exact (proj1 (X2_failed_save_diverges (PStr "sk-new")
                  (ConfigManager.mk (config_with_key "sk-old"))
                  (mk_disk true None None None
                     (Some (mk_exn PermissionError "[Errno 13] Permission denied")))
                  _ (mk_exn PermissionError "[Errno 13] Permission denied")
                  eq_refl set_openai_api_key "openai_api_key"
                  (or_introl eq_refl) eq_refl)).
Defined.

(** X3: when the loaded record is not an object (the file held another
    JSON value), every setter raises [TypeError] before anything is written:
    neither the record nor the storage changes. *)
Theorem X3_setter_on_non_object (value : pyval) (self : ConfigManager.t)
    (disk : Disk) :
  (forall fields, config self <> PDict fields) ->
  forall setter,
    In setter [set_openai_api_key; set_whisper_model; set_text_model] ->
    exists e, setter value (self, disk) = (Raise e, (self, disk))
              /\ exn_cls e = TypeError.
Proof.
  intros Hc setter Hin. cbn [In] in Hin.
  assert (H : forall key, exists e,
             set_and_save key value (self, disk) = (Raise e, (self, disk))
             /\ exn_cls e = TypeError).
  { intros key. unfold set_and_save.
    destruct (config self) as [| | | | |fields] eqn:E; cbn [py_setitem];
      try (eexists; split; reflexivity).
    now destruct (Hc fields). }
  destruct Hin as [<-|[<-|[<-|[]]]]; apply H.
Qed.

Lemma X3_setter_on_non_object_witness :
  exists e, set_text_model (PStr "gpt-4o") (ConfigManager.mk (PList []), fresh_disk)
            = (Raise e, (ConfigManager.mk (PList []), fresh_disk))
            /\ exn_cls e = TypeError.
Proof.
  apply (X3_setter_on_non_object (PStr "gpt-4o") (ConfigManager.mk (PList [])) fresh_disk).
  - intros fields. discriminate.
  - right. right. left. reflexivity.
Defined.

(** X4: building a [ConfigManager] never writes the preferences file: the
    file is afterwards what it was before, so the defaults of a first start
    exist in memory only.  The one thing it may change is the directory,
    which it creates when it is missing; when that fails, the exception of
    [mkdir] is what the constructor raises. *)
Theorem X4_init_never_writes (d : Disk) :
  file (snd (ConfigManager.__init__ d)) = file d
  /\ (dir_exists d = false -> mkdir_error d = None ->
        dir_exists (snd (ConfigManager.__init__ d)) = true)
  /\ (forall e, dir_exists d = false -> mkdir_error d = Some e ->
        ConfigManager.__init__ d = (Raise e, d))
  /\ (file d = None -> (dir_exists d = true \/ mkdir_error d = None) ->
        fst (ConfigManager.__init__ d) = Return (ConfigManager.mk default_config)).
Proof.
  unfold ConfigManager.__init__, _ensure_config_dir.
  repeat split.
  - destruct (dir_exists d); [|destruct (mkdir_error d)]; cbn;
      try reflexivity; now destruct (_load_config _).
  - intros Hd Hm. rewrite Hd, Hm. now destruct (_load_config _).
  - intros e Hd Hm. now rewrite Hd, Hm.
  - intros Hf [Hd|Hm].
    + rewrite Hd. now rewrite (load_config_absent d Hf).
    + destruct (dir_exists d).
      * now rewrite (load_config_absent d Hf).
      * rewrite Hm. now rewrite (load_config_absent (with_dir d) Hf).
Qed.

Lemma X4_init_never_writes_witness :
  dir_exists (snd (ConfigManager.__init__ (mk_disk false None None None None))) = true
  /\ file (snd (ConfigManager.__init__ (mk_disk false None None None None))) = None.
Proof.
  split.
  - exact (proj1 (proj2 (X4_init_never_writes (mk_disk false None None None None)))
             eq_refl eq_refl).
  - exact (proj1 (X4_init_never_writes (mk_disk false None None None None))).
Defined.

(** ** openai_service.py *)

Lemma requests_carry_client (self : OpenAIService.t) (env : Remote) (c : Client)
    (input : string) (model : pyval) :
  client self = Some c ->
  Forall (fun call => Desk.call_client call = c)
    (snd (OpenAIService.transcribe_audio self env input model))
  /\ Forall (fun call => Desk.call_client call = c)
       (snd (OpenAIService.clean_text self env input model))
  /\ Forall (fun call => Desk.call_client call = c)
       (snd (OpenAIService.generate_title self env input model)).
Proof.
  intros Hc.
  unfold OpenAIService.transcribe_audio, OpenAIService.clean_text,
    OpenAIService.generate_title.
  rewrite Hc, !try_except_log.
  unfold transcribe_audio_try, clean_text_try, generate_title_try,
    lift, nbind, chat_create, audio_create, ret.
  repeat split.
  - destruct (is_gpt4o_transcribe model) as [[|]|]; cbn; auto;
      destruct (open_rb env input); cbn; auto.
    all: try (destruct (chat_completions_create env _) as [choices|]; cbn; auto;
              destruct (first_choice choices); cbn; auto).
    all: try (destruct (audio_transcriptions_create env _); cbn; auto).
  - destruct (chat_completions_create env _) as [choices|]; cbn; auto.
    all: try (destruct (first_choice choices); cbn; auto).
  - destruct (chat_completions_create env _) as [choices|]; cbn; auto.
    all: try (destruct (first_choice choices) as [reply|]; cbn; auto).
    all: try (destruct (Json.json_loads reply) as [r|]; cbn; auto).
    all: try (destruct (py_get r "title" _); cbn; auto).
    all: try (destruct (py_get r "filename" _); cbn; auto).
Qed.

(** X5: a credential takes effect at once and the last one wins.  A service
    built with a key has a client exactly when the key is not empty (truthy);
    after [set_api_key], whatever came before, every request that any of the
    three operations sends is sent with the client of the new key. *)
Theorem X5_credential_takes_effect (self : OpenAIService.t) (key : pyval)
    (env : Remote) (input : string) (model : pyval) :
  client (OpenAIService.__init__ key) = (if truthy key then Some (OpenAI key) else None)
  /\ api_key (OpenAIService.set_api_key self key) = key
  /\ Forall (fun call => Desk.call_client call = OpenAI key)
       (snd (OpenAIService.transcribe_audio (OpenAIService.set_api_key self key)
               env input model))
  /\ Forall (fun call => Desk.call_client call = OpenAI key)
       (snd (OpenAIService.clean_text (OpenAIService.set_api_key self key)
               env input model))
  /\ Forall (fun call => Desk.call_client call = OpenAI key)
       (snd (OpenAIService.generate_title (OpenAIService.set_api_key self key)
               env input model)).
Proof.
  split; [unfold OpenAIService.__init__; destruct (truthy key); reflexivity|].
  split; [reflexivity|].
  exact (requests_carry_client (OpenAIService.set_api_key self key) env (OpenAI key)
           input model eq_refl).
Qed.

(** X6: when the audio file cannot be opened, [transcribe_audio] sends no
    request, on either route, and raises the text of the error of [open]
    after "Error transcribing audio: ". *)
Theorem X6_unreadable_audio_sends_nothing (self : OpenAIService.t) (env : Remote)
    (c : Client) (file_path m : string) (e : pyexn) :
  client self = Some c ->
  open_rb env file_path = Raise e ->
  OpenAIService.transcribe_audio self env file_path (PStr m)
  = (Raise (mk_exn Exception ("Error transcribing audio: " ++ exn_str e)), []).
Proof.
  intros Hc Ho. unfold OpenAIService.transcribe_audio, transcribe_audio_try.
  rewrite Hc. cbn [is_gpt4o_transcribe lift nbind].
  destruct (startswith m "gpt-4o" && contains "transcribe" m); rewrite Ho; reflexivity.
Qed.

Lemma X6_unreadable_audio_sends_nothing_witness :
  OpenAIService.transcribe_audio (OpenAIService.__init__ (PStr "sk-test"))
    (mk_remote (fun _ => Raise (mk_exn FileNotFoundError
                                  "[Errno 2] No such file or directory: '/tmp/a.mp3'"))
       (fun _ => Return ["hello"]) (fun _ => Return "hello"))
    "/tmp/a.mp3" (PStr "gpt-4o-transcribe")
  = (Raise (mk_exn Exception
       "Error transcribing audio: [Errno 2] No such file or directory: '/tmp/a.mp3'"),
     []).
Proof.
  exact (X6_unreadable_audio_sends_nothing (OpenAIService.__init__ (PStr "sk-test"))
           (mk_remote (fun _ => Raise (mk_exn FileNotFoundError
                                  "[Errno 2] No such file or directory: '/tmp/a.mp3'"))
              (fun _ => Return ["hello"]) (fun _ => Return "hello"))
           (OpenAI (PStr "sk-test")) "/tmp/a.mp3" "gpt-4o-transcribe" _ eq_refl eq_refl).
Defined.

(** X7: what a successful transcription returns.  On the speech-to-text
    route it is the text of the response; on the chat-style route it is the
    content of the first choice, the other choices being ignored.  In both
    cases it is returned as received. *)
Theorem X7_transcription_result (self : OpenAIService.t) (env : Remote) (c : Client)
    (file_path m : string) (audio : bytes) :
  client self = Some c ->
  open_rb env file_path = Return audio ->
  (forall text,
     startswith m "gpt-4o" && contains "transcribe" m = false ->
     audio_transcriptions_create env (mk_audio c (PStr m) audio) = Return text ->
     fst (OpenAIService.transcribe_audio self env file_path (PStr m)) = Return text)
  /\ (forall first others,
        startswith m "gpt-4o" && contains "transcribe" m = true ->
        chat_completions_create env
          (mk_chat c (PStr m)
             [ mk_message "system" (Text transcribe_system_prompt);
               mk_message "user" (AudioPart audio) ]
             "text") = Return (first :: others) ->
        fst (OpenAIService.transcribe_audio self env file_path (PStr m)) = Return first).
Proof.
  intros Hc Ho. unfold OpenAIService.transcribe_audio, transcribe_audio_try.
  rewrite Hc. cbn [is_gpt4o_transcribe lift nbind]. split.
  - intros text Hr Ha. rewrite Hr, Ho. unfold audio_create. now rewrite Ha.
  - intros first others Hr Ha. rewrite Hr, Ho. unfold chat_create, nbind.
    now rewrite Ha.
Qed.

Lemma X7_transcription_result_witness :
  fst (OpenAIService.transcribe_audio (OpenAIService.__init__ (PStr "sk-test"))
         (remote_answering "hello world") "/tmp/a.mp3" (PStr "whisper-1"))
  = Return "hello world".
Proof.
  exact (proj1 (X7_transcription_result (OpenAIService.__init__ (PStr "sk-test"))
                  (remote_answering "hello world") (OpenAI (PStr "sk-test"))
                  "/tmp/a.mp3" "whisper-1" [] eq_refl eq_refl)
           "hello world" eq_refl eq_refl).
Defined.

(** X8: a model that is not a [str] (a number or [null] stored in the
    preferences file) makes [transcribe_audio] fail on [startswith], before
    the file is opened and without any request; the text is that of the
    [AttributeError], after the prefix of the stage. *)
Theorem X8_model_must_be_text (self : OpenAIService.t) (env : Remote) (c : Client)
    (file_path : string) (model : pyval) :
  client self = Some c ->
  (forall m, model <> PStr m) ->
  OpenAIService.transcribe_audio self env file_path model
  = (Raise (mk_exn Exception
              ("Error transcribing audio: '" ++ type_name model
               ++ "' object has no attribute 'startswith'")), []).
Proof.
  intros Hc Hm. unfold OpenAIService.transcribe_audio, transcribe_audio_try.
  rewrite Hc. destruct model; try reflexivity. now destruct (Hm s).
Qed.

Lemma X8_model_must_be_text_witness :
  OpenAIService.transcribe_audio (OpenAIService.__init__ (PStr "sk-test"))
    (remote_answering "hello") "/tmp/a.mp3" (PInt 1)
  = (Raise (mk_exn Exception
       "Error transcribing audio: 'int' object has no attribute 'startswith'"), []).
Proof.
  apply (X8_model_must_be_text (OpenAIService.__init__ (PStr "sk-test"))
           (remote_answering "hello") (OpenAI (PStr "sk-test")) "/tmp/a.mp3" (PInt 1)
           eq_refl).
  intros m. discriminate.
Defined.

(** X9: a chat response without choices is a failure of the stage, not an
    empty result: cleaning and title generation raise "list index out of
    range" after their prefix, and the one request has been sent. *)
Theorem X9_no_choices (self : OpenAIService.t) (env : Remote) (c : Client)
    (text : string) (model : pyval) :
  client self = Some c ->
  (chat_completions_create env
     (mk_chat c model
        [ mk_message "system" (Text clean_system_prompt);
          mk_message "user" (Text text) ] "text") = Return [] ->
   OpenAIService.clean_text self env text model
   = (Raise (mk_exn Exception "Error cleaning text: list index out of range"),
      [ChatCompletion
         (mk_chat c model
            [ mk_message "system" (Text clean_system_prompt);
              mk_message "user" (Text text) ] "text")]))
  /\ (chat_completions_create env
        (mk_chat c model
           [ mk_message "system" (Text title_system_prompt);
             mk_message "user" (Text text) ] "json_object") = Return [] ->
      OpenAIService.generate_title self env text model
      = (Raise (mk_exn Exception "Error generating title: list index out of range"),
         [ChatCompletion
            (mk_chat c model
               [ mk_message "system" (Text title_system_prompt);
                 mk_message "user" (Text text) ] "json_object")])).
Proof.
  intros Hc. unfold OpenAIService.clean_text, OpenAIService.generate_title,
    clean_text_try, generate_title_try, chat_create, nbind.
  rewrite Hc. split; intros ->; reflexivity.
Qed.

Lemma X9_no_choices_witness :
  fst (OpenAIService.clean_text (OpenAIService.__init__ (PStr "sk-test"))
         (mk_remote (fun _ => Return []) (fun _ => Return []) (fun _ => Return "hello"))
         "some text" (PStr "gpt-4o-mini"))
  = Raise (mk_exn Exception "Error cleaning text: list index out of range").
Proof.
  exact (f_equal fst
           (proj1 (X9_no_choices (OpenAIService.__init__ (PStr "sk-test"))
                     (mk_remote (fun _ => Return []) (fun _ => Return [])
                        (fun _ => Return "hello"))
                     (OpenAI (PStr "sk-test")) "some text" (PStr "gpt-4o-mini") eq_refl)
              eq_refl)).
Defined.

(** X10: cleaning sends one chat request made of the fixed instruction
    as the system message and the given text, unchanged, as the user
    message, with the given model and the plain-text response format, and
    returns the content of the first choice as received. *)
Theorem X10_clean_request_and_result (self : OpenAIService.t) (env : Remote)
    (c : Client) (text : string) (model : pyval) (first : string)
    (others : list string) :
  client self = Some c ->
  chat_completions_create env
    (mk_chat c model
       [ mk_message "system" (Text clean_system_prompt);
         mk_message "user" (Text text) ] "text") = Return (first :: others) ->
  OpenAIService.clean_text self env text model
  = (Return first,
     [ChatCompletion
        (mk_chat c model
           [ mk_message "system" (Text clean_system_prompt);
             mk_message "user" (Text text) ] "text")]).
Proof.
  intros Hc Hr. unfold OpenAIService.clean_text, clean_text_try, chat_create, nbind.
  rewrite Hc, Hr. reflexivity.
Qed.

Lemma X10_clean_request_and_result_witness :
  fst (OpenAIService.clean_text (OpenAIService.__init__ (PStr "sk-test"))
         (remote_answering "Cleaned.") "um, raw text" (PStr "gpt-4o"))
  = Return "Cleaned.".
Proof.
  exact (f_equal fst
           (X10_clean_request_and_result (OpenAIService.__init__ (PStr "sk-test"))
              (remote_answering "Cleaned.") (OpenAI (PStr "sk-test")) "um, raw text"
              (PStr "gpt-4o") "Cleaned." [] eq_refl eq_refl)).
Defined.



(** ** main.py: the stages *)

(** X12: what a trigger dispatches.  When a trigger starts a worker, the
    worker calls the method of the stage on the input of the stage (the
    selected file, or the text of the transcript edit) with the model that
    the preferences hold at that moment (the transcription model for
    transcription, the text model for cleaning and title generation); the
    progress bar is shown; only transcription disables its button; and the
    Session, the service and the message boxes are as they were. *)
Theorem X12_dispatch (s : stage_name) (w w' : MainWindow) (t : WorkerThread) :
  trigger s w = Return (w', Some t) ->
  func t = Desk.method_of s
  /\ arg_input t = Desk.stage_input s w
  /\ arg_input t <> EmptyString
  /\ Desk.model_getter s (config_manager w) = Return (arg_model t)
  /\ worker w' = Some t
  /\ progress_bar_visible w' = true
  /\ transcribe_button_enabled w'
     = match s with
       | Transcribe => false
       | _ => transcribe_button_enabled w
       end
  /\ session w' = session w
  /\ openai_service w' = openai_service w
  /\ config_manager w' = config_manager w
  /\ dialogs w' = dialogs w.
Proof.
  destruct s; cbn [trigger Desk.method_of Desk.stage_input Desk.model_getter].
  - unfold App.transcribe_audio.
    destruct (selected_file_path w) as [[|c r]|] eqn:Hp; try discriminate.
    destruct (ConfigManager.get_openai_api_key (config_manager w)) as [key|];
      [|discriminate].
    cbn [bind]. destruct (truthy key); [|discriminate]. cbn [negb].
    cbn [config_manager set_progress_bar showMessage set_transcribe_button].
    destruct (ConfigManager.get_whisper_model (config_manager w)) as [model|];
      [|discriminate].
    cbn [bind]. intros [= <- <-]. cbn. rewrite ?Hp.
    repeat split; discriminate.
  - unfold App.clean_text.
    destruct (transcribed_text w) as [|c r] eqn:Ht; [discriminate|].
    destruct (ConfigManager.get_openai_api_key (config_manager w)) as [key|];
      [|discriminate].
    cbn [bind]. destruct (truthy key); [|discriminate]. cbn [negb].
    cbn [config_manager set_progress_bar showMessage].
    destruct (ConfigManager.get_text_model (config_manager w)) as [model|];
      [|discriminate].
    cbn [bind]. intros [= <- <-]. cbn. rewrite ?Ht.
    repeat split; discriminate.
  - unfold App.generate_title.
    destruct (transcribed_text w) as [|c r] eqn:Ht; [discriminate|].
    destruct (ConfigManager.get_openai_api_key (config_manager w)) as [key|];
      [|discriminate].
    cbn [bind]. destruct (truthy key); [|discriminate]. cbn [negb].
    cbn [config_manager set_progress_bar showMessage].
    destruct (ConfigManager.get_text_model (config_manager w)) as [model|];
      [|discriminate].
    cbn [bind]. intros [= <- <-]. cbn. rewrite ?Ht.
    repeat split; discriminate.
Qed.

Lemma X12_dispatch_witness :
  arg_model (mk_worker "clean" M_clean_text "um, raw text" (PStr "gpt-4o-mini"))
  = PStr "gpt-4o-mini"
  /\ Desk.model_getter Clean
       (config_manager
          (set_transcribed_text (window_of (config_with_key "sk-test")) "um, raw text"))
     = Return (PStr "gpt-4o-mini").
Proof.
  split; [reflexivity|].
  exact (proj1 (proj2 (proj2 (proj2 (X12_dispatch Clean
           (set_transcribed_text (window_of (config_with_key "sk-test")) "um, raw text")
           _ (mk_worker "clean" M_clean_text "um, raw text" (PStr "gpt-4o-mini"))
           eq_refl))))).
Defined.

(** X13: a dispatched stage whose call fails, whichever of the three it is,
    leaves the Session as it was (no partial result is stored), shows one
    message box "Error" with the text of the exception, hides the progress
    bar and enables the Transcribe button. *)
Theorem X13_failed_stage (s : stage_name) (env : Remote) (w w1 : MainWindow)
    (t : WorkerThread) (e : pyexn) :
  trigger s w = Return (w1, Some t) ->
  fst (call (func t) (openai_service w) env (arg_input t) (arg_model t)) = Raise e ->
  exists w',
    stage (trigger s) env w
    = Return (w', snd (call (func t) (openai_service w) env (arg_input t) (arg_model t)))
    /\ session w' = session w
    /\ dialogs w' = (dialogs w ++ [Critical "Error" (exn_str e)])%list
    /\ progress_bar_visible w' = false
    /\ transcribe_button_enabled w' = true.
Proof.
  intros Ht Hcall.
  destruct (X12_dispatch s w w1 t Ht)
    as (_ & _ & _ & _ & _ & _ & _ & Hsess & Hsvc & _ & Hdlg).
  unfold stage. rewrite Ht. unfold complete, run. rewrite Hsvc.
  destruct (call (func t) (openai_service w) env (arg_input t) (arg_model t))
    as [[r|e'] log]; cbn [fst] in Hcall; [discriminate|].
  injection Hcall as ->.
  eexists. split; [reflexivity|]. cbn [fst snd fold_left deliver].
  repeat split.
  - exact Hsess.
  - cbn. now rewrite Hdlg.
Qed.

Lemma X13_failed_stage_witness :
  exists w',
    stage (trigger Title) remote_rejecting
      (set_transcribed_text (window_of (config_with_key "sk-test")) "some text")
    = Return (w', snd (call M_generate_title (OpenAIService.__init__ (PStr "sk-test"))
                         remote_rejecting "some text" (PStr "gpt-4o-mini")))
    /\ generated_title w' = None
    /\ dialogs w' = [Critical "Error"
                       "Error generating title: Error code: 401 - Incorrect API key provided"].
Proof.
  destruct (X13_failed_stage Title remote_rejecting
              (set_transcribed_text (window_of (config_with_key "sk-test")) "some text")
              _ (mk_worker "title" M_generate_title "some text" (PStr "gpt-4o-mini"))
              (wrapped "Error generating title: " invalid_key) eq_refl eq_refl)
    as (w' & Hs & Hsess & Hd & _).
  exists w'. split; [exact Hs|]. split; [|exact Hd].
  exact (f_equal suggestedTitle Hsess).
Defined.

(** X14: a successful transcription stores the returned text as the
    transcript and changes nothing else of the Session; afterwards the
    progress bar is hidden, the Transcribe button is enabled again and no
    message box has been shown. *)
Theorem X14_transcription_stored (env : Remote) (w : MainWindow) (c : ascii)
    (r : string) (key model : pyval) (text : string) (log : list api_call) :
  selected_file_path w = Some (String c r) ->
  ConfigManager.get_openai_api_key (config_manager w) = Return key ->
  truthy key = true ->
  ConfigManager.get_whisper_model (config_manager w) = Return model ->
  OpenAIService.transcribe_audio (openai_service w) env (String c r) model
  = (Return text, log) ->
  exists w',
    stage App.transcribe_audio env w = Return (w', log)
    /\ session w' = mk_session (Some (String c r)) text (cleaned_text w)
                      (generated_title w) (generated_filename w)
    /\ progress_bar_visible w' = false
    /\ transcribe_button_enabled w' = true
    /\ dialogs w' = dialogs w.
Proof.
  intros Hp Hk Ht Hm Hcall. unfold stage, App.transcribe_audio.
  rewrite Hp, Hk. cbn [bind]. rewrite Ht. cbn [negb].
  cbn [config_manager set_progress_bar showMessage set_transcribe_button].
  rewrite Hm. cbn [bind]. unfold complete, run.
  cbn [func arg_input arg_model call openai_service set_worker set_progress_bar
       showMessage set_transcribe_button].
  rewrite Hcall. cbn [fold_left deliver finished_slot].
  eexists. split; [reflexivity|]. repeat split.
  unfold session. cbn. now rewrite Hp.
Qed.

Lemma X14_transcription_stored_witness :
  exists w',
    stage App.transcribe_audio (remote_answering "hello world")
      (select_audio_file "/tmp/a.mp3" (window_of (config_with_key "sk-test")))
    = Return (w', [AudioTranscription
                     (mk_audio (OpenAI (PStr "sk-test")) (PStr "whisper-1") [])])
    /\ transcribed_text w' = "hello world".
Proof.
  destruct (X14_transcription_stored (remote_answering "hello world")
              (select_audio_file "/tmp/a.mp3" (window_of (config_with_key "sk-test")))
              "/"%char "tmp/a.mp3" (PStr "sk-test") (PStr "whisper-1") "hello world"
              [AudioTranscription
                 (mk_audio (OpenAI (PStr "sk-test")) (PStr "whisper-1") [])]
              eq_refl eq_refl eq_refl eq_refl eq_refl)
    as (w' & Hs & Hsess & _).
  exists w'. split; [exact Hs|]. exact (f_equal transcript Hsess).
Defined.

(** X15: a successful title generation stores the returned pair as the
    suggested title and file name, shows the title in the label, and leaves
    the transcript, the cleaned transcript and the selected file as they
    were. *)
Theorem X15_title_stored (env : Remote) (w : MainWindow)
    (key model title filename : pyval) (log : list api_call) :
  transcribed_text w <> EmptyString ->
  ConfigManager.get_openai_api_key (config_manager w) = Return key ->
  truthy key = true ->
  ConfigManager.get_text_model (config_manager w) = Return model ->
  OpenAIService.generate_title (openai_service w) env (transcribed_text w) model
  = (Return (title, filename), log) ->
  exists w',
    stage App.generate_title env w = Return (w', log)
    /\ session w' = mk_session (selected_file_path w) (transcribed_text w)
                      (cleaned_text w) (Some title) (Some filename)
    /\ title_label w' = Some title
    /\ progress_bar_visible w' = false
    /\ dialogs w' = dialogs w.
Proof.
  intros Hne Hk Ht Hm Hcall. unfold stage, App.generate_title.
  destruct (transcribed_text w) as [|c r] eqn:Htext; [congruence|].
  rewrite Hk. cbn [bind]. rewrite Ht. cbn [negb].
  cbn [config_manager set_progress_bar showMessage]. rewrite Hm. cbn [bind].
  unfold complete, run.
  cbn [func arg_input arg_model call openai_service set_worker set_progress_bar
       showMessage].
  rewrite Hcall. cbn [fold_left deliver finished_slot].
  eexists. split; [reflexivity|]. repeat split.
  unfold session. cbn. now rewrite Htext.
Qed.

Lemma X15_title_stored_witness :
  exists w',
    fst (match stage App.generate_title
                 (remote_answering
                    (Json.dumps (PDict [ ("title", PStr "Weekly Sync");
                                         ("filename", PStr "weekly-sync") ])))
                 (set_transcribed_text (window_of (config_with_key "sk-test"))
                    "notes of the weekly sync")
         with
         | Return r => r
         | Raise _ => (window_of (config_with_key "sk-test"), [])
         end) = w'
    /\ generated_filename w' = Some (PStr "weekly-sync").
Proof.
  destruct (X15_title_stored
              (remote_answering
                 (Json.dumps (PDict [ ("title", PStr "Weekly Sync");
                                      ("filename", PStr "weekly-sync") ])))
              (set_transcribed_text (window_of (config_with_key "sk-test"))
                 "notes of the weekly sync")
              (PStr "sk-test") (PStr "gpt-4o-mini")
              (PStr "Weekly Sync") (PStr "weekly-sync")
              (snd (OpenAIService.generate_title (OpenAIService.__init__ (PStr "sk-test"))
                      (remote_answering
                         (Json.dumps (PDict [ ("title", PStr "Weekly Sync");
                                              ("filename", PStr "weekly-sync") ])))
                      "notes of the weekly sync" (PStr "gpt-4o-mini"))))
    as (w' & Hs & Hsess & _).
  - discriminate.
  - reflexivity.
  - reflexivity.
  - reflexivity.
  - vm_compute. reflexivity.
  - exists w'. split.
    + rewrite Hs. reflexivity.
    + exact (f_equal suggestedFilename Hsess).
Defined.

(** X16: [on_error] enables the Transcribe button whether or not a file is
    selected.  So after a failure with no file selected the button is
    enabled, and a click on it then does nothing: no message, no request, no
    change. *)
Theorem X16_error_enables_transcribe (message : string) (env : Remote)
    (w : MainWindow) :
  no_file (selected_file_path w) = true ->
  transcribe_button_enabled (on_error message w) = true
  /\ stage App.transcribe_audio env (on_error message w)
     = Return (on_error message w, []).
Proof.
  intros Hn. split; [reflexivity|].
  unfold stage, App.transcribe_audio. cbn [selected_file_path on_error
    set_progress_bar set_transcribe_button showMessage show_dialog].
  destruct (selected_file_path w) as [[|c r]|]; try discriminate; reflexivity.
Qed.

Lemma X16_error_enables_transcribe_witness :
  transcribe_button_enabled (window_of (config_with_key "sk-test")) = false
  /\ transcribe_button_enabled
       (on_error "Error cleaning text: timeout" (window_of (config_with_key "sk-test")))
     = true.
Proof.
  split; [reflexivity|].
  exact (proj1 (X16_error_enables_transcribe "Error cleaning text: timeout"
                  remote_rejecting (window_of (config_with_key "sk-test")) eq_refl)).
Defined.

(** X17: selecting a file.  A cancelled file dialog changes nothing.  A
    chosen file becomes the selected file, whatever was selected before, and
    enables the Transcribe button; the rest of the Session is kept; and when
    a credential is stored the next click on Transcribe starts a worker on
    exactly that file with the stored transcription model. *)
Theorem X17_select_audio_file (w : MainWindow) (c : ascii) (r : string) :
  select_audio_file EmptyString w = w
  /\ session (select_audio_file (String c r) w)
     = mk_session (Some (String c r)) (transcribed_text w) (cleaned_text w)
         (generated_title w) (generated_filename w)
  /\ transcribe_button_enabled (select_audio_file (String c r) w) = true
  /\ (forall key model,
        ConfigManager.get_openai_api_key (config_manager w) = Return key ->
        truthy key = true ->
        ConfigManager.get_whisper_model (config_manager w) = Return model ->
        exists w',
          App.transcribe_audio (select_audio_file (String c r) w)
          = Return (w', Some (mk_worker "transcribe" M_transcribe_audio
                                (String c r) model))).
Proof.
  repeat split. intros key model Hk Ht Hm.
  unfold App.transcribe_audio.
  cbn [select_audio_file selected_file_path set_transcribe_button set_selected_file
       config_manager].
  rewrite Hk. cbn [bind]. rewrite Ht. cbn [negb].
  cbn [config_manager set_progress_bar showMessage set_transcribe_button
       set_selected_file].
  rewrite Hm. cbn [bind]. eexists. reflexivity.
Qed.

Lemma X17_select_audio_file_witness :
  exists w',
    App.transcribe_audio
      (select_audio_file "/tmp/a.mp3" (window_of (config_with_key "sk-test")))
    = Return (w', Some (mk_worker "transcribe" M_transcribe_audio "/tmp/a.mp3"
                          (PStr "whisper-1"))).
Proof.
  exact (proj2 (proj2 (proj2 (X17_select_audio_file
           (window_of (config_with_key "sk-test")) "/"%char "tmp/a.mp3")))
           (PStr "sk-test") (PStr "whisper-1") eq_refl eq_refl eq_refl).
Defined.

(** ** main.py: settings and start *)

Lemma open_settings_config (w : MainWindow) (d : Disk)
    (fields : list (string * pyval)) (key whisper_model text_model : string) :
  config (config_manager w) = PDict fields ->
  write_error d = None -> dir_exists d = true ->
  let fields' :=
    dict_set "text_model" (PStr text_model)
      (dict_set "whisper_model" (PStr whisper_model)
         (dict_set "openai_api_key" (PStr key) fields)) in
  open_settings (Some (key, whisper_model, text_model)) w d
  = (Return tt,
     (showMessage
        (set_model_info_label
           (set_openai_service
              (set_config_manager w (ConfigManager.mk (PDict fields')))
              (OpenAIService.set_api_key (openai_service w) (PStr key)))
           (PStr whisper_model))
        "Settings updated",
      with_file d (Json.dumps (PDict fields')))).
Proof.
  intros Hc Hw Hd fields'. unfold open_settings.
  unfold set_openai_api_key, set_whisper_model, set_text_model, set_and_save.
  rewrite Hc. cbn [py_setitem]. rewrite (save_config_writes _ d Hw Hd).
  cbn [config py_setitem].
  rewrite (save_config_writes _ (with_file d _)); [|exact Hw|exact Hd].
  cbn [config py_setitem].
  rewrite (save_config_writes _ (with_file (with_file d _) _)); [|exact Hw|exact Hd].
  cbn [config]. destruct d; reflexivity.
Qed.

(** X18: settings that are accepted on a storage that can be written.  The
    three values of the dialog become what the three getters return, the
    file then decodes to the record in memory, the service gets a client for
    the new key, the label names the new transcription model, and the Session
    and the message boxes are untouched.  A cancelled dialog changes
    nothing. *)
Theorem X18_settings_accepted (w : MainWindow) (d : Disk)
    (fields : list (string * pyval)) (key whisper_model text_model : string) :
  config (config_manager w) = PDict fields -> wf (PDict fields) ->
  write_error d = None -> dir_exists d = true -> read_error d = None ->
  let result := open_settings (Some (key, whisper_model, text_model)) w d in
  let w' := fst (snd result) in
  let d' := snd (snd result) in
  fst result = Return tt
  /\ get_openai_api_key (config_manager w') = Return (PStr key)
  /\ get_whisper_model (config_manager w') = Return (PStr whisper_model)
  /\ get_text_model (config_manager w') = Return (PStr text_model)
  /\ _load_config d' = Return (config (config_manager w'))
  /\ openai_service w' = OpenAIService.mk (PStr key) (Some (OpenAI (PStr key)))
  /\ model_info_label w' = PStr whisper_model
  /\ session w' = session w
  /\ dialogs w' = dialogs w
  /\ open_settings None w d = (Return tt, (w, d)).
Proof.
  intros Hc Hwf Hw Hd Hr result w' d'. subst result w' d'.
  rewrite (open_settings_config w d fields key whisper_model text_model Hc Hw Hd).
  cbn [fst snd].
  split; [reflexivity|].
  unfold get_openai_api_key, get_whisper_model, get_text_model.
  cbn [config_manager showMessage set_model_info_label set_openai_service
       set_config_manager config py_get].
  split.
  { rewrite !dict_get_set_other by discriminate. now rewrite dict_get_set_same. }
  split.
  { rewrite dict_get_set_other by discriminate. now rewrite dict_get_set_same. }
  split; [now rewrite dict_get_set_same|].
  split.
  { apply load_after_write; [exact Hr|]. now repeat apply dict_set_wf. }
  repeat split.
Qed.

Lemma X18_settings_accepted_witness :
  get_whisper_model
    (config_manager
       (fst (snd (open_settings (Some ("sk-new", "gpt-4o-transcribe", "gpt-4o"))
                    (window_of (config_with_key "sk-old")) fresh_disk))))
  = Return (PStr "gpt-4o-transcribe").
Proof.
  refine (proj1 (proj2 (proj2 (X18_settings_accepted
            (window_of (config_with_key "sk-old")) fresh_disk _
            "sk-new" "gpt-4o-transcribe" "gpt-4o" eq_refl _ eq_refl eq_refl eq_refl)))).
  apply wf_dict. split.
  - repeat constructor; cbn; intuition discriminate.
  - repeat constructor.
Defined.

(** X19: settings that are accepted when the file cannot be written.  The
    first setter raises and [open_settings] stops there: the new key is in
    the record in memory, the two models are not assigned, the file is
    unchanged, and the service still holds its previous credential and
    client, which is then not the credential the triggers test. *)
Theorem X19_settings_not_saved (w : MainWindow) (d : Disk)
    (fields : list (string * pyval)) (key whisper_model text_model : string)
    (e : pyexn) :
  config (config_manager w) = PDict fields ->
  write_error d = Some e ->
  let result := open_settings (Some (key, whisper_model, text_model)) w d in
  let w' := fst (snd result) in
  fst result = Raise e
  /\ snd (snd result) = d
  /\ get_openai_api_key (config_manager w') = Return (PStr key)
  /\ get_whisper_model (config_manager w') = get_whisper_model (config_manager w)
  /\ get_text_model (config_manager w') = get_text_model (config_manager w)
  /\ openai_service w' = openai_service w
  /\ model_info_label w' = model_info_label w
  /\ status_message w' = status_message w.
Proof.
  intros Hc Hw result w'. subst result w'.
  unfold open_settings, set_openai_api_key, set_and_save, save_config.
  rewrite Hc. cbn [py_setitem]. rewrite Hw. cbn [fst snd].
  unfold get_openai_api_key, get_whisper_model, get_text_model.
  cbn [config_manager set_config_manager config py_get]. rewrite Hc. cbn [py_get].
  rewrite dict_get_set_same, !dict_get_set_other by discriminate.
  repeat split.
Qed.

Lemma X19_settings_not_saved_witness :
  let d := mk_disk true None None None
             (Some (mk_exn PermissionError "[Errno 13] Permission denied")) in
  let w' := fst (snd (open_settings (Some ("sk-new", "whisper-1", "gpt-4o-mini"))
                        (window_of (config_with_key EmptyString)) d)) in
  get_openai_api_key (config_manager w') = Return (PStr "sk-new")
  /\ client (openai_service w') = None.
Proof.
  cbv zeta. split.
  - exact (proj1 (proj2 (proj2 (X19_settings_not_saved
             (window_of (config_with_key EmptyString))
             (mk_disk true None None None
                (Some (mk_exn PermissionError "[Errno 13] Permission denied")))
             _ "sk-new" "whisper-1" "gpt-4o-mini"
             (mk_exn PermissionError "[Errno 13] Permission denied")
             eq_refl eq_refl)))).
  - reflexivity.
Defined.

(** X20: the guard of the service is what the user meets when the stored
    credential and the service disagree.  With a credential in the
    preferences and a service without client (the state X19 leaves when no
    key was set before), cleaning passes the guards of the window, sends no
    request and ends in the message box "API key not set. Please set your
    OpenAI API key in settings.", with the Session unchanged. *)
Theorem X20_guard_of_the_service_shown (env : Remote) (w : MainWindow)
    (key model : pyval) :
  transcribed_text w <> EmptyString ->
  ConfigManager.get_openai_api_key (config_manager w) = Return key ->
  truthy key = true ->
  ConfigManager.get_text_model (config_manager w) = Return model ->
  client (openai_service w) = None ->
  exists w',
    stage App.clean_text env w = Return (w', [])
    /\ session w' = session w
    /\ dialogs w'
       = (dialogs w
          ++ [Critical "Error"
                "API key not set. Please set your OpenAI API key in settings."])%list.
Proof.
  intros Hne Hk Ht Hm Hc. unfold stage, App.clean_text.
  destruct (transcribed_text w) as [|c r] eqn:Htext; [congruence|].
  rewrite Hk. cbn [bind]. rewrite Ht. cbn [negb].
  cbn [config_manager set_progress_bar showMessage]. rewrite Hm. cbn [bind].
  unfold complete, run.
  cbn [func arg_input arg_model call openai_service set_worker set_progress_bar
       showMessage].
  unfold OpenAIService.clean_text. rewrite Hc.
  eexists. split; [reflexivity|]. split; [|reflexivity].
  unfold session. cbn. now rewrite Htext.
Qed.

Lemma X20_guard_of_the_service_shown_witness :
  exists w',
    stage App.clean_text remote_rejecting
      (set_transcribed_text
         (fst (snd (open_settings (Some ("sk-new", "whisper-1", "gpt-4o-mini"))
                      (window_of (config_with_key EmptyString))
                      (mk_disk true None None None
                         (Some (mk_exn PermissionError "[Errno 13] Permission denied"))))))
         "some text")
    = Return (w', [])
    /\ dialogs w'
       = [Critical "Error"
            "API key not set. Please set your OpenAI API key in settings."].
Proof.
  destruct (X20_guard_of_the_service_shown remote_rejecting
              (set_transcribed_text
                 (fst (snd (open_settings (Some ("sk-new", "whisper-1", "gpt-4o-mini"))
                              (window_of (config_with_key EmptyString))
                              (mk_disk true None None None
                                 (Some (mk_exn PermissionError
                                          "[Errno 13] Permission denied"))))))
                 "some text")
              (PStr "sk-new") (PStr "gpt-4o-mini"))
    as (w' & Hs & _ & Hd).
  - discriminate.
  - reflexivity.
  - reflexivity.
  - reflexivity.
  - reflexivity.
  - exists w'. split; assumption.
Defined.

(** X21: settings survive a restart.  After settings accepted on a storage
    that can be written and read, a window started on that storage holds the
    same record, a service built from the saved key (with a client exactly
    when the key is not empty), the label of the saved transcription model,
    and an empty Session. *)
Theorem X21_settings_survive_restart (w : MainWindow) (d : Disk)
    (fields : list (string * pyval)) (key whisper_model text_model : string) :
  config (config_manager w) = PDict fields -> wf (PDict fields) ->
  write_error d = None -> dir_exists d = true -> read_error d = None ->
  let result := open_settings (Some (key, whisper_model, text_model)) w d in
  let w' := fst (snd result) in
  let d' := snd (snd result) in
  exists w2,
    App.__init__ d' = (Return w2, d')
    /\ config_manager w2 = config_manager w'
    /\ openai_service w2 = OpenAIService.__init__ (PStr key)
    /\ model_info_label w2 = PStr whisper_model
    /\ session w2 = mk_session None EmptyString EmptyString None None
    /\ transcribe_button_enabled w2 = false.
Proof.
  intros Hc Hwf Hw Hd Hr result w' d'.
  destruct (X18_settings_accepted w d fields key whisper_model text_model
              Hc Hwf Hw Hd Hr) as (_ & Hk & Hm & _ & Hload & _).
  fold result in Hk, Hm, Hload. fold w' in Hk, Hm, Hload. fold d' in Hload.
  assert (Hdir : dir_exists d' = true).
  { subst d' result.
    rewrite (open_settings_config w d fields key whisper_model text_model Hc Hw Hd).
    exact Hd. }
  unfold App.__init__, ConfigManager.__init__, _ensure_config_dir.
  rewrite Hdir, Hload.
  assert (Hcm : ConfigManager.mk (config (config_manager w')) = config_manager w')
    by now destruct (config_manager w').
  rewrite Hcm, Hk, Hm. cbn [bind].
  eexists. split; [reflexivity|]. repeat split.
Qed.

Lemma X21_settings_survive_restart_witness :
  exists w2,
    fst (App.__init__
           (snd (snd (open_settings (Some ("sk-new", "gpt-4o-transcribe", "gpt-4o"))
                        (window_of (config_with_key "sk-old")) fresh_disk))))
    = Return w2
    /\ client (openai_service w2) = Some (OpenAI (PStr "sk-new")).
Proof.
  destruct (X21_settings_survive_restart (window_of (config_with_key "sk-old"))
              fresh_disk _ "sk-new" "gpt-4o-transcribe" "gpt-4o"
              eq_refl) as (w2 & Hinit & _ & Hsvc & _).
  - apply wf_dict. split.
    + repeat constructor; cbn; intuition discriminate.
    + repeat constructor.
  - reflexivity.
  - reflexivity.
  - reflexivity.
  - exists w2. split.
    + now rewrite Hinit.
    + now rewrite Hsvc.
Defined.



(** ** main.py: the settings dialog *)

(** X23: what the dialog shows for the stored preferences.  The key field
    holds the stored key.  A combo box shows the stored model when the
    catalog of the service lists it, and the first entry of the catalog
    ("whisper-1", "gpt-4o-mini") when it does not; so pressing OK without
    editing, on a storage that can be written, keeps a listed model and
    replaces an unlisted one by that first entry. *)
Theorem X23_dialog_shows_catalog_models (w : MainWindow) (d : Disk)
    (fields : list (string * pyval)) (key whisper_model text_model : string) :
  config (config_manager w) = PDict fields ->
  get_openai_api_key (config_manager w) = Return (PStr key) ->
  get_whisper_model (config_manager w) = Return (PStr whisper_model) ->
  get_text_model (config_manager w) = Return (PStr text_model) ->
  let shown_whisper :=
    if existsb (String.eqb whisper_model) WHISPER_MODELS
    then whisper_model else "whisper-1" in
  let shown_text :=
    if existsb (String.eqb text_model) TEXT_MODELS then text_model else "gpt-4o-mini" in
  Desk.ApiKeyDialog_init (config_manager w) (openai_service w)
  = Some (Desk.mk_dialog key true false "Show" shown_whisper shown_text)
  /\ (write_error d = None -> dir_exists d = true ->
      exists w' d',
        Desk.accept_settings_unchanged w d = Some (Return tt, (w', d'))
        /\ get_openai_api_key (config_manager w') = Return (PStr key)
        /\ get_whisper_model (config_manager w') = Return (PStr shown_whisper)
        /\ get_text_model (config_manager w') = Return (PStr shown_text)).
Proof.
  intros Hc Hk Hm Ht shown_whisper shown_text.
  assert (Hinit : Desk.ApiKeyDialog_init (config_manager w) (openai_service w)
                  = Some (Desk.mk_dialog key true false "Show" shown_whisper shown_text)).
  { unfold Desk.ApiKeyDialog_init. rewrite Hk, Hm, Ht. reflexivity. }
  split; [exact Hinit|].
  intros Hw Hd. unfold Desk.accept_settings_unchanged. rewrite Hinit.
  cbn [Desk.get_api_key Desk.get_whisper_model Desk.get_text_model
       Desk.api_key_input Desk.whisper_model_combo Desk.text_model_combo].
  rewrite (open_settings_config w d fields key shown_whisper shown_text Hc Hw Hd).
  eexists _, _. split; [reflexivity|].
  unfold get_openai_api_key, get_whisper_model, get_text_model.
  cbn [config_manager showMessage set_model_info_label set_openai_service
       set_config_manager config py_get].
  rewrite !dict_get_set_same.
  rewrite !dict_get_set_other by discriminate.
  rewrite !dict_get_set_same. repeat split.
  rewrite dict_get_set_other by discriminate. now rewrite dict_get_set_same.
Qed.

Lemma X23_dialog_shows_catalog_models_witness :
  Desk.ApiKeyDialog_init
    (ConfigManager.mk (PDict [ ("openai_api_key", PStr "sk-test");
                               ("whisper_model", PStr "whisper-2");
                               ("text_model", PStr "gpt-4o") ]))
    (OpenAIService.__init__ (PStr "sk-test"))
  = Some (Desk.mk_dialog "sk-test" true false "Show" "whisper-1" "gpt-4o").
Proof.
  exact (proj1 (X23_dialog_shows_catalog_models
                  (window_of (PDict [ ("openai_api_key", PStr "sk-test");
                                      ("whisper_model", PStr "whisper-2");
                                      ("text_model", PStr "gpt-4o") ]))
                  fresh_disk _ "sk-test" "whisper-2" "gpt-4o"
                  eq_refl eq_refl eq_refl eq_refl)).
Defined.

(** X24: the Show/Hide button.  After any click the key is masked exactly
    when the button is not checked, and the caption is "Hide" exactly when
    the key is visible; a click changes neither the key nor the selected
    models; and two clicks on a dialog as it opens bring it back to that
    state. *)
Theorem X24_show_hide (dlg : Desk.ApiKeyDialog) :
  let dlg' := Desk.click_show_hide dlg in
  Desk.echo_password dlg' = negb (Desk.show_hide_checked dlg')
  /\ Desk.show_hide_checked dlg' = negb (Desk.show_hide_checked dlg)
  /\ Desk.show_hide_text dlg' = (if Desk.echo_password dlg' then "Show" else "Hide")
  /\ Desk.get_api_key dlg' = Desk.get_api_key dlg
  /\ Desk.get_whisper_model dlg' = Desk.get_whisper_model dlg
  /\ Desk.get_text_model dlg' = Desk.get_text_model dlg
  /\ (Desk.echo_password dlg = true -> Desk.show_hide_checked dlg = false ->
      Desk.show_hide_text dlg = "Show" ->
      Desk.click_show_hide (Desk.click_show_hide dlg) = dlg).
Proof.
  destruct dlg as [k echo checked caption wm tm].
  unfold Desk.click_show_hide, Desk.toggle_password_visibility.
  cbn [Desk.api_key_input Desk.echo_password Desk.show_hide_checked
       Desk.show_hide_text Desk.whisper_model_combo Desk.text_model_combo].
  destruct checked; cbn; repeat split; intros; subst; try reflexivity; discriminate.
Qed.

Lemma X24_show_hide_witness :
  Desk.click_show_hide
    (Desk.click_show_hide
       (Desk.mk_dialog "sk-test" true false "Show" "whisper-1" "gpt-4o-mini"))
  = Desk.mk_dialog "sk-test" true false "Show" "whisper-1" "gpt-4o-mini".
Proof.
  exact (proj2 (proj2 (proj2 (proj2 (proj2 (proj2 (X24_show_hide
           (Desk.mk_dialog "sk-test" true false "Show" "whisper-1" "gpt-4o-mini")))))))
           eq_refl eq_refl eq_refl).
Defined.

(** ** main.py: clipboard and downloads *)

(** X25: copying.  An empty text is not copied: the clipboard keeps what it
    held and the window is untouched.  A text that is not empty replaces the
    content of the clipboard; nothing is written to disk, and of the window
    only the status message changes. *)
Theorem X25_copy_to_clipboard (text : string) (w : MainWindow) (desk : Desk.Desktop) :
  Desk.copy_to_clipboard EmptyString (w, desk) = (w, desk)
  /\ (text <> EmptyString ->
      let st := Desk.copy_to_clipboard text (w, desk) in
      Desk.clipboard (snd st) = Some text
      /\ Desk.written (snd st) = Desk.written desk
      /\ fst st = showMessage w "Copied to clipboard"
      /\ session (fst st) = session w).
Proof.
  split; [reflexivity|]. intros Hne.
  destruct text as [|c r]; [congruence|]. repeat split.
Qed.

Lemma X25_copy_to_clipboard_witness :
  Desk.clipboard
    (snd (Desk.copy_transcribed
            (set_transcribed_text (window_of default_config) "hello world",
             Desk.mk_desktop None [])))
  = Some "hello world".
Proof.
  refine (proj1 (proj2 (X25_copy_to_clipboard "hello world"
            (set_transcribed_text (window_of default_config) "hello world")
            (Desk.mk_desktop None [])) _)).
  discriminate.
Defined.

(** X26: the file name proposed for a download.  With a generated file
    name that is a text and is not empty, the cleaned text is proposed under
    that name followed by "-cleaned.txt" and the transcript under that name
    followed by ".txt".  With no generated file name, or an empty one, the
    name is "transcript-", the time stamp, "-", the kind of text and
    ".txt". *)
Theorem X26_default_filename (sh : Desk.Shell) (w : MainWindow) :
  (forall c r,
     generated_filename w = Some (PStr (String c r)) ->
     Desk.str_of sh (PStr (String c r)) = String c r ->
     Desk.default_filename sh w "cleaned" = String c r ++ "-cleaned.txt"
     /\ Desk.default_filename sh w "transcribed" = String c r ++ ".txt")
  /\ (forall text_type,
        generated_filename w = None
        \/ generated_filename w = Some (PStr EmptyString) ->
        Desk.default_filename sh w text_type
        = "transcript-" ++ Desk.strftime_now sh ++ "-" ++ text_type ++ ".txt").
Proof.
  unfold Desk.default_filename. split.
  - intros c r Hg Hs. rewrite Hg, Hs. split; reflexivity.
  - intros text_type [Hg|Hg]; rewrite Hg; reflexivity.
Qed.

Lemma X26_default_filename_witness :
  Desk.default_filename Desk.sample_shell
    (set_generated (window_of default_config) (PStr "Weekly Sync") (PStr "weekly-sync"))
    "cleaned"
  = "weekly-sync-cleaned.txt"
  /\ Desk.default_filename Desk.sample_shell (window_of default_config) "cleaned"
     = "transcript-20250101-093000-cleaned.txt".
Proof.
  split.
  - exact (proj1 (proj1 (X26_default_filename Desk.sample_shell
             (set_generated (window_of default_config)
                (PStr "Weekly Sync") (PStr "weekly-sync")))
             "w"%char "eekly-sync" eq_refl eq_refl)).
  - exact (proj2 (X26_default_filename Desk.sample_shell (window_of default_config))
             "cleaned" (or_introl eq_refl)).
Defined.

(** X27: a download.  With an empty text, or a save dialog that is
    cancelled, nothing is written and the window is untouched.  Otherwise,
    when the chosen path can be written, the file at that path holds exactly
    the text, the files written before are kept, and the status names the
    path; when it cannot, nothing is written and the failure is shown in a
    message box "Error" as "Error saving file: " followed by its text.  In
    no case does the Session or the clipboard change. *)
Theorem X27_download_text (sh : Desk.Shell) (text text_type : string)
    (w : MainWindow) (desk : Desk.Desktop) :
  let st := Desk.download_text sh text text_type (w, desk) in
  Desk.download_text sh EmptyString text_type (w, desk) = (w, desk)
  /\ session (fst st) = session w
  /\ Desk.clipboard (snd st) = Desk.clipboard desk
  /\ (text <> EmptyString ->
      (Desk.getSaveFileName sh (Desk.default_filename sh w text_type) = EmptyString ->
         st = (w, desk))
      /\ (forall path,
            path <> EmptyString ->
            Desk.getSaveFileName sh (Desk.default_filename sh w text_type) = path ->
            (Desk.open_w sh path = None ->
               Desk.written (snd st) = (path, text) :: Desk.written desk
               /\ fst st = showMessage w ("Saved to " ++ path))
            /\ (forall e, Desk.open_w sh path = Some e ->
                  Desk.written (snd st) = Desk.written desk
                  /\ fst st = show_dialog w
                                (Critical "Error" ("Error saving file: " ++ exn_str e))))).
Proof.
  cbv zeta. unfold Desk.download_text. cbn [fst snd].
  split; [reflexivity|].
  destruct text as [|c r].
  - split; [reflexivity|]. split; [reflexivity|]. intros H. congruence.
  - destruct (Desk.getSaveFileName sh (Desk.default_filename sh w text_type))
      as [|c' r'] eqn:Hp.
    + split; [reflexivity|]. split; [reflexivity|]. intros _.
      split; [reflexivity|]. intros path Hne Hpath. congruence.
    + destruct (Desk.open_w sh (String c' r')) as [e|] eqn:Ho.
      * split; [reflexivity|]. split; [reflexivity|]. intros _.
        split; [discriminate|]. intros path Hne <-. split.
        -- rewrite Ho. discriminate.
        -- intros e' He'. rewrite Ho in He'. injection He' as <-.
           split; reflexivity.
      * split; [reflexivity|]. split; [reflexivity|]. intros _.
        split; [discriminate|]. intros path Hne <-. split.
        -- intros _. split; reflexivity.
        -- intros e' He'. rewrite Ho in He'. discriminate.
Qed.

Lemma X27_download_text_witness :
  Desk.written
    (snd (Desk.download_cleaned Desk.sample_shell
            (set_cleaned_text (window_of default_config) "Cleaned.",
             Desk.mk_desktop None [])))
  = [("/home/user/transcript-20250101-093000-cleaned.txt", "Cleaned.")].
Proof.
  refine (proj1 (proj1 (proj2 (proj2 (proj2 (proj2 (X27_download_text
            Desk.sample_shell "Cleaned." "cleaned"
            (set_cleaned_text (window_of default_config) "Cleaned.")
            (Desk.mk_desktop None [])))) _)
            "/home/user/transcript-20250101-093000-cleaned.txt" _ eq_refl) eq_refl)).
  - discriminate.
  - discriminate.
Defined.
